(** * onnx_to_tensorrt: compiling an ONNX model into a TensorRT engine

    A shallow embedding of [onnx_to_tensorrt::onnxToTrtCtx]
    (src/operator/subgraph/tensorrt/onnx_to_tensorrt.cc) and the properties
    of its parse, diagnostic and build pipeline.

    The function is glue around three external collaborators: protobuf
    (deserialising the model), the ONNX-TensorRT parser and the TensorRT
    builder.  Their answers are gathered in a [Backend] record; every call
    that leaves the function (a line on [cerr], a [LOG(WARNING)], a setter on
    the builder, a compile invocation, [std::async]) is recorded, in program
    order, in a trace of [Event]s. *)

From Stdlib Require Import ZArith NArith List String Ascii Bool Lia DecimalString.
From Stdlib Require Import DecimalPos DecimalZ.
Import ListNotations.

Local Open Scope string_scope.
Local Open Scope Z_scope.

(** ** Results, exceptions and the trace monad *)

(** What a C++ [throw] (or a fault of an unchecked container access) carries. *)
Inductive Exn : Type :=
| dmlc_Error (what : string)
| EngineBuildFailed
| IndexOutOfRange.

Inductive Result (A : Type) : Type :=
| Ok (a : A)
| Throw (e : Exn).
Arguments Ok {A} a.
Arguments Throw {A} e.

(** spec 7 names the two [dmlc::Error]s of the parse stage. *)
Definition MalformedModel : Exn := dmlc_Error "Could not parse ONNX from string".
Definition GraphCompileError : Exn := dmlc_Error "Cannot parse ONNX into TensorRT Engine".

Module Onnx.
(** The parts of [onnx::ModelProto] the reporter reads. *)
Record NodeProto : Type := {
  op_type : string;
  input : list string;
  output : list string
}.
Record GraphProto : Type := { node : list NodeProto }.
Record ModelProto : Type := { graph : GraphProto }.
End Onnx.
Import Onnx.

Module Trt.
(** [nvinfer1::ILogger::Severity], with the integer of each enumerator. *)
Inductive Severity : Type :=
| kINTERNAL_ERROR | kERROR | kWARNING | kINFO | kVERBOSE.

Definition severity_int (s : Severity) : Z :=
  match s with
  | kINTERNAL_ERROR => 0
  | kERROR => 1
  | kWARNING => 2
  | kINFO => 3
  | kVERBOSE => 4
  end.

(** [nvinfer1::BuilderFlag]: the bit each flag occupies in the mask. *)
Inductive BuilderFlag : Type := kFP16 | kINT8 | kDEBUG.

Definition flag_bit (f : BuilderFlag) : N :=
  match f with
  | kFP16 => 0
  | kINT8 => 1
  | kDEBUG => 2
  end%N.

(** [nvinfer1::NetworkDefinitionCreationFlag::kEXPLICIT_BATCH]. *)
Definition kEXPLICIT_BATCH : N := 0%N.

(** [nvonnxparser::IParserError]. *)
Record IParserError : Type := {
  err_node : Z;
  err_file : string;
  err_line : Z;
  err_func : string;
  err_code : Z;
  err_desc : string
}.

Record TRT_Logger : Type := { logger_verbosity : Severity }.

(** Modelled from the spec: [TRTInt8Calibrator] is declared outside the
    sources at hand; spec 6 gives it [cacheIsEmpty() -> bool] and
    [markDone()].  [cache_empty] is what [isCacheEmpty()] answers when the
    builder asks. *)
Record TRTInt8Calibrator : Type := {
  calibrator_id : N;
  cache_empty : bool
}.
Definition isCacheEmpty (c : TRTInt8Calibrator) : bool := cache_empty c.

(** The settings a builder carries ([nvinfer1::IBuilder]). *)
Record IBuilder : Type := {
  maxBatchSize : Z;
  fp16Mode : bool;
  maxWorkspaceSize : N;
  debugSync : bool;
  int8Mode : bool;
  int8Calibrator : option TRTInt8Calibrator
}.

(** [nvinfer1::IBuilderConfig] (TensorRT 7): a flag mask, the workspace
    budget and the calibrator. *)
Record IBuilderConfig : Type := {
  flags : N;
  cfg_maxWorkspaceSize : N;
  cfg_int8Calibrator : option TRTInt8Calibrator
}.

Definition getFlag (c : IBuilderConfig) (f : BuilderFlag) : bool :=
  N.testbit (flags c) (flag_bit f).

(** A network: the flags it was created with and, once the parser has
    imported a model into it, the bytes it was populated from. *)
Record INetworkDefinition : Type := {
  creation_flags : N;
  imported : option string
}.

Record IParser : Type := { parser_logger : TRT_Logger }.

(** An engine is opaque here: the backend names it. *)
Definition ICudaEngine : Type := N.
End Trt.
Import Trt.

(** One invocation of the compile step: the builder and network it runs on
    and, for [buildEngineWithConfig], the configuration ([None] for
    [buildCudaEngine], which reads the builder's own settings).  The closure
    handed to [std::async] holds the same three objects, moved into it. *)
Record CompileCall : Type := {
  call_builder : IBuilder;
  call_network : INetworkDefinition;
  call_config : option IBuilderConfig
}.

(** Everything the function does that is visible outside it. *)
Inductive Event : Type :=
| Cerr (line : string)
| LogWarning (msg : string)
| ParserParse (bytes : string)
| SetMaxBatchSize (n : Z)
| SetFlag (f : BuilderFlag)
| SetFp16Mode (b : bool)
| SetMaxWorkspaceSize (n : N)
| SetDebugSync (b : bool)
| SetInt8Mode (b : bool)
| SetInt8Calibrator (c : TRTInt8Calibrator)
| CalibratorSetDone (c : TRTInt8Calibrator)
| BuildEngine (call : CompileCall)
| Async (task : CompileCall).

(** A computation: the events it emitted and how it ended. *)
Definition M (A : Type) : Type := (list Event * Result A)%type.

Definition ret {A} (a : A) : M A := ([], Ok a).
Definition throw {A} (e : Exn) : M A := ([], Throw e).
Definition tell (e : Event) : M unit := ([e], Ok tt).

Definition bind {A B} (m : M A) (k : A -> M B) : M B :=
  match m with
  | (t, Ok a) => let (t', r) := k a in ((t ++ t')%list, r)
  | (t, Throw e) => (t, Throw e)
  end.

Notation "x <- m ;; k" := (bind m (fun x => k))
  (at level 61, m at next level, right associativity).
Notation "m ;;; k" := (bind m (fun _ => k))
  (at level 61, right associativity).

Definition trace {A} (m : M A) : list Event := fst m.
Definition outcome {A} (m : M A) : Result A := snd m.

(** ** The external collaborators *)

Record Backend : Type := {
  (** the TensorRT release the file is compiled against *)
  NV_TENSORRT_MAJOR : Z;
  (** whether each factory hands out an object ([false]: a null pointer) *)
  creates_builder : bool;
  creates_network : bool;
  creates_parser : bool;
  creates_builder_config : bool;
  (** protobuf: [ModelProto::ParseFromString]; [None] when it returns false *)
  ParseFromString : string -> option ModelProto;
  (** protobuf: [NodeProto::DebugString] *)
  DebugString : NodeProto -> string;
  (** [IParser::parse] and the error records it leaves behind *)
  parser_parse : string -> bool;
  parser_errors : string -> list IParserError;
  (** capability probes *)
  platformHasFastFp16 : bool;
  platformHasFastInt8 : bool;
  (** the compile step: [None] is a null engine pointer *)
  buildEngineWithConfig :
    IBuilder -> INetworkDefinition -> IBuilderConfig -> option ICudaEngine;
  buildCudaEngine : IBuilder -> INetworkDefinition -> option ICudaEngine
}.

(** ** Text *)

Definition endl : string := String (ascii_of_nat 10) EmptyString.
Definition dquote : string := String (ascii_of_nat 34) EmptyString.

(** [operator<<] on an [int]. *)
Definition show_int (z : Z) : string := NilZero.string_of_int (Z.to_int z).

(** ** Helpers of onnx_to_tensorrt.h *)

(** Modelled from the spec: [InferObject] lives in onnx_to_tensorrt.h, which
    is not among the sources.  spec 4.4: a compile step that fails signals
    [EngineBuildFailed] and no partial engine is returned; a non-null raw
    pointer becomes the owning handle of the same object.  A raw pointer is
    an [option]; past [InferObject] the object is held directly. *)
Definition InferObject {T} (obj : option T) : M T :=
  match obj with
  | None => throw EngineBuildFailed
  | Some o => ret o
  end.

(** protobuf's [RepeatedPtrField::Get]: an unchecked access, which the model
    turns into a fault when the index is outside the sequence. *)
Definition repeated_get {T} (xs : list T) (index : Z) : M T :=
  if index <? 0 then throw IndexOutOfRange
  else match nth_error xs (Z.to_nat index) with
       | Some x => ret x
       | None => throw IndexOutOfRange
       end.

Definition is_empty {T} (xs : list T) : bool :=
  match xs with [] => true | _ :: _ => false end.

(** ** The diagnostic reporter (the body of the loop over parser errors) *)

Definition cerr_line (s : string) : M unit := tell (Cerr s).

(** The text of the closing [ERROR] statement, up to its [endl]. *)
Definition error_line (error : IParserError) : string :=
  "ERROR: " ++ err_file error ++ ":" ++ show_int (err_line error)
  ++ " In function " ++ err_func error ++ ":" ++ endl
  ++ "[" ++ show_int (err_code error) ++ "] " ++ err_desc error.

Definition report_error (be : Backend) (parsed_model : ModelProto)
    (verbosity : Severity) (error : IParserError) : M unit :=
  (if negb (err_node error =? -1) then
     node <- repeated_get (node (graph parsed_model)) (err_node error) ;;
     arrow <- (if negb (is_empty (output node)) then
                 out0 <- repeated_get (output node) 0 ;;
                 ret (" -> " ++ dquote ++ out0 ++ dquote)
               else ret "") ;;
     cerr_line ("While parsing node number " ++ show_int (err_node error)
                ++ " [" ++ op_type node ++ arrow ++ "]:") ;;;
     (if severity_int kINFO <=? severity_int verbosity then
        cerr_line "--- Begin node ---" ;;;
        cerr_line (DebugString be node) ;;;
        cerr_line "--- End node ---"
      else ret tt)
   else ret tt) ;;;
  cerr_line (error_line error).

(** [for (i = 0; i < nerror; ++i)] over [getError(i)]. *)
Fixpoint report_errors (be : Backend) (parsed_model : ModelProto)
    (verbosity : Severity) (errors : list IParserError) : M unit :=
  match errors with
  | [] => ret tt
  | error :: rest =>
      report_error be parsed_model verbosity error ;;;
      report_errors be parsed_model verbosity rest
  end.

(** ** The TensorRT objects and their setters *)

(** The four factories.  Each returns a raw pointer: the fresh object, or
    null when the backend does not hand one out; the caller wraps the
    pointer in [InferObject].  A fresh builder or configuration has every
    flag off; its sizes are overwritten before any compile step reads
    them. *)
Definition createInferBuilder (be : Backend) (logger : TRT_Logger)
  : option IBuilder :=
  if creates_builder be
  then Some {| maxBatchSize := 0; fp16Mode := false; maxWorkspaceSize := 0%N;
               debugSync := false; int8Mode := false; int8Calibrator := None |}
  else None.

Definition createNetworkV2 (be : Backend) (b : IBuilder) (f : N)
  : option INetworkDefinition :=
  if creates_network be
  then Some {| creation_flags := f; imported := None |}
  else None.

Definition createParser (be : Backend) (n : INetworkDefinition)
    (logger : TRT_Logger) : option IParser :=
  if creates_parser be
  then Some {| parser_logger := logger |}
  else None.

Definition createBuilderConfig (be : Backend) (b : IBuilder)
  : option IBuilderConfig :=
  if creates_builder_config be
  then Some {| flags := 0%N; cfg_maxWorkspaceSize := 0%N;
               cfg_int8Calibrator := None |}
  else None.

Definition LOG_WARNING (msg : string) : M unit := tell (LogWarning msg).

Definition parse (be : Backend) (n : INetworkDefinition) (bytes : string)
  : M (bool * INetworkDefinition) :=
  tell (ParserParse bytes) ;;;
  ret (parser_parse be bytes,
       {| creation_flags := creation_flags n; imported := Some bytes |}).

Definition setMaxBatchSize (b : IBuilder) (n : Z) : M IBuilder :=
  tell (SetMaxBatchSize n) ;;;
  ret {| maxBatchSize := n; fp16Mode := fp16Mode b;
         maxWorkspaceSize := maxWorkspaceSize b; debugSync := debugSync b;
         int8Mode := int8Mode b; int8Calibrator := int8Calibrator b |}.

Definition setFp16Mode (b : IBuilder) (v : bool) : M IBuilder :=
  tell (SetFp16Mode v) ;;;
  ret {| maxBatchSize := maxBatchSize b; fp16Mode := v;
         maxWorkspaceSize := maxWorkspaceSize b; debugSync := debugSync b;
         int8Mode := int8Mode b; int8Calibrator := int8Calibrator b |}.

Definition setMaxWorkspaceSize (b : IBuilder) (n : N) : M IBuilder :=
  tell (SetMaxWorkspaceSize n) ;;;
  ret {| maxBatchSize := maxBatchSize b; fp16Mode := fp16Mode b;
         maxWorkspaceSize := n; debugSync := debugSync b;
         int8Mode := int8Mode b; int8Calibrator := int8Calibrator b |}.

Definition setDebugSync (b : IBuilder) (v : bool) : M IBuilder :=
  tell (SetDebugSync v) ;;;
  ret {| maxBatchSize := maxBatchSize b; fp16Mode := fp16Mode b;
         maxWorkspaceSize := maxWorkspaceSize b; debugSync := v;
         int8Mode := int8Mode b; int8Calibrator := int8Calibrator b |}.

Definition setInt8Mode (b : IBuilder) (v : bool) : M IBuilder :=
  tell (SetInt8Mode v) ;;;
  ret {| maxBatchSize := maxBatchSize b; fp16Mode := fp16Mode b;
         maxWorkspaceSize := maxWorkspaceSize b; debugSync := debugSync b;
         int8Mode := v; int8Calibrator := int8Calibrator b |}.

Definition setInt8Calibrator (b : IBuilder) (c : TRTInt8Calibrator) : M IBuilder :=
  tell (SetInt8Calibrator c) ;;;
  ret {| maxBatchSize := maxBatchSize b; fp16Mode := fp16Mode b;
         maxWorkspaceSize := maxWorkspaceSize b; debugSync := debugSync b;
         int8Mode := int8Mode b; int8Calibrator := Some c |}.

(** [IBuilderConfig::setFlag]: sets the flag's bit in the mask. *)
Definition setFlag (c : IBuilderConfig) (f : BuilderFlag) : M IBuilderConfig :=
  tell (SetFlag f) ;;;
  ret {| flags := N.lor (flags c) (N.shiftl 1 (flag_bit f));
         cfg_maxWorkspaceSize := cfg_maxWorkspaceSize c;
         cfg_int8Calibrator := cfg_int8Calibrator c |}.

Definition cfg_setMaxWorkspaceSize (c : IBuilderConfig) (n : N) : M IBuilderConfig :=
  tell (SetMaxWorkspaceSize n) ;;;
  ret {| flags := flags c; cfg_maxWorkspaceSize := n;
         cfg_int8Calibrator := cfg_int8Calibrator c |}.

Definition cfg_setInt8Calibrator (c : IBuilderConfig) (k : TRTInt8Calibrator)
  : M IBuilderConfig :=
  tell (SetInt8Calibrator k) ;;;
  ret {| flags := flags c; cfg_maxWorkspaceSize := cfg_maxWorkspaceSize c;
         cfg_int8Calibrator := Some k |}.

Definition setDone (c : TRTInt8Calibrator) : M unit := tell (CalibratorSetDone c).

(** What the backend answers to a compile invocation. *)
Definition compile (be : Backend) (call : CompileCall) : option ICudaEngine :=
  match call_config call with
  | Some c => buildEngineWithConfig be (call_builder call) (call_network call) c
  | None => buildCudaEngine be (call_builder call) (call_network call)
  end.

(** The two compile entry points, as called on the calling thread. *)
Definition call_buildEngineWithConfig (be : Backend) (b : IBuilder)
    (n : INetworkDefinition) (c : IBuilderConfig) : M (option ICudaEngine) :=
  tell (BuildEngine {| call_builder := b; call_network := n;
                       call_config := Some c |}) ;;;
  ret (buildEngineWithConfig be b n c).

Definition call_buildCudaEngine (be : Backend) (b : IBuilder)
    (n : INetworkDefinition) : M (option ICudaEngine) :=
  tell (BuildEngine {| call_builder := b; call_network := n;
                       call_config := None |}) ;;;
  ret (buildCudaEngine be b n).

(** [std::async]: the closure takes the moved objects; the future that comes
    back holds the scheduled task. *)
Definition std_async (task : CompileCall) : M (option CompileCall) :=
  tell (Async task) ;;;
  ret (Some task).

(** What the closure computes once it runs: [InferObject] of the second
    compile invocation, so an engine or the failure of that build. *)
Definition run_task (be : Backend) (task : CompileCall) : Result ICudaEngine :=
  outcome (InferObject (compile be task)).

(** ** onnxToTrtCtx *)

(** The returned tuple; a default-constructed [std::future] is [None]. *)
Record Ctx : Type := {
  ctx_engine : option ICudaEngine;
  ctx_parser : option IParser;
  ctx_logger : option TRT_Logger;
  ctx_future : option CompileCall
}.

Definition fp16_warning : string := "TensorRT can't use fp16 on this platform".
Definition int8_warning : string := "TensorRT can't use int8 on this platform".

(** The function, statement by statement.  The [if] on [NV_TENSORRT_MAJOR]
    is the [#if NV_TENSORRT_MAJOR > 6] of the source: its first branch
    configures an [IBuilderConfig], its second the builder itself.  A local
    that the source assigns again is bound again under the same name. *)
Definition onnxToTrtCtx (be : Backend) (onnx_model : string) (fp16_mode : bool)
    (max_batch_size : Z) (max_workspace_size : N)
    (calibrator : option TRTInt8Calibrator) (verbosity : Severity)
    (debug_builder : bool) : M Ctx :=
  let trt_logger := {| logger_verbosity := verbosity |} in
  trt_builder <- InferObject (createInferBuilder be trt_logger) ;;
  let explicitBatch := N.shiftl 1 kEXPLICIT_BATCH in
  trt_network <- InferObject (createNetworkV2 be trt_builder explicitBatch) ;;
  trt_parser <- InferObject (createParser be trt_network trt_logger) ;;
  match ParseFromString be onnx_model with
  | None => throw MalformedModel
  | Some parsed_model =>
  parsed <- parse be trt_network onnx_model ;;
  let (ok, trt_network) := parsed in
  (if negb ok then
     report_errors be parsed_model verbosity (parser_errors be onnx_model) ;;;
     throw GraphCompileError
   else ret tt) ;;;
  trt_builder <- setMaxBatchSize trt_builder max_batch_size ;;
  if 6 <? NV_TENSORRT_MAJOR be then
    builder_config <- InferObject (createBuilderConfig be trt_builder) ;;
    builder_config <- (if fp16_mode then
                         if platformHasFastFp16 be
                         then setFlag builder_config kFP16
                         else LOG_WARNING fp16_warning ;;; ret builder_config
                       else ret builder_config) ;;
    builder_config <- cfg_setMaxWorkspaceSize builder_config max_workspace_size ;;
    builder_config <- (if debug_builder then setFlag builder_config kDEBUG
                       else ret builder_config) ;;
    raw_engine <- call_buildEngineWithConfig be trt_builder trt_network
                    builder_config ;;
    trt_engine <- InferObject raw_engine ;;
    int8 <- (match calibrator with
             | Some c =>
                 if platformHasFastInt8 be then
                   builder_config <- setFlag builder_config kINT8 ;;
                   builder_config <- cfg_setInt8Calibrator builder_config c ;;
                   ret (builder_config, Some c)
                 else
                   LOG_WARNING int8_warning ;;;
                   setDone c ;;;
                   ret (builder_config, None)
             | None => ret (builder_config, None)
             end) ;;
    let (builder_config, calibrator) := int8 in
    future_int8_engine <-
      (match calibrator with
       | Some c =>
           if isCacheEmpty c then
             std_async {| call_builder := trt_builder;
                          call_network := trt_network;
                          call_config := Some builder_config |}
           else ret None
       | None => ret None
       end) ;;
    ret {| ctx_engine := Some trt_engine; ctx_parser := Some trt_parser;
           ctx_logger := Some trt_logger; ctx_future := future_int8_engine |}
  else
    trt_builder <- (if fp16_mode then
                      if platformHasFastFp16 be
                      then setFp16Mode trt_builder true
                      else LOG_WARNING fp16_warning ;;; ret trt_builder
                    else ret trt_builder) ;;
    trt_builder <- setMaxWorkspaceSize trt_builder max_workspace_size ;;
    trt_builder <- setDebugSync trt_builder debug_builder ;;
    int8 <- (match calibrator with
             | Some c =>
                 if platformHasFastInt8 be then
                   trt_builder <- setInt8Mode trt_builder true ;;
                   trt_builder <- setInt8Calibrator trt_builder c ;;
                   ret (trt_builder, Some c)
                 else
                   LOG_WARNING int8_warning ;;;
                   setDone c ;;;
                   ret (trt_builder, None)
             | None => ret (trt_builder, None)
             end) ;;
    let (trt_builder, calibrator) := int8 in
    raw_engine <- call_buildCudaEngine be trt_builder trt_network ;;
    trt_engine <- InferObject raw_engine ;;
    future_int8_engine <-
      (match calibrator with
       | Some c =>
           if isCacheEmpty c then
             std_async {| call_builder := trt_builder;
                          call_network := trt_network;
                          call_config := None |}
           else ret None
       | None => ret None
       end) ;;
    ret {| ctx_engine := Some trt_engine; ctx_parser := Some trt_parser;
           ctx_logger := Some trt_logger; ctx_future := future_int8_engine |}
  end.

(** ** Reading a trace *)

Fixpoint warnings (t : list Event) : list string :=
  match t with
  | [] => []
  | LogWarning msg :: t' => msg :: warnings t'
  | _ :: t' => warnings t'
  end.

Fixpoint cerr_lines (t : list Event) : list string :=
  match t with
  | [] => []
  | Cerr line :: t' => line :: cerr_lines t'
  | _ :: t' => cerr_lines t'
  end.

(** The compile invocations made on the calling thread. *)
Fixpoint builds (t : list Event) : list CompileCall :=
  match t with
  | [] => []
  | BuildEngine call :: t' => call :: builds t'
  | _ :: t' => builds t'
  end.

(** The background builds handed to [std::async]. *)
Fixpoint scheduled (t : list Event) : list CompileCall :=
  match t with
  | [] => []
  | Async task :: t' => task :: scheduled t'
  | _ :: t' => scheduled t'
  end.

(** The settings in force for a compile invocation, whichever object holds
    them. *)
Definition uses_fp16 (call : CompileCall) : bool :=
  match call_config call with
  | Some c => getFlag c kFP16
  | None => fp16Mode (call_builder call)
  end.

Definition uses_int8 (call : CompileCall) : bool :=
  match call_config call with
  | Some c => getFlag c kINT8
  | None => int8Mode (call_builder call)
  end.

Definition uses_debug (call : CompileCall) : bool :=
  match call_config call with
  | Some c => getFlag c kDEBUG
  | None => debugSync (call_builder call)
  end.

Definition workspace_of (call : CompileCall) : N :=
  match call_config call with
  | Some c => cfg_maxWorkspaceSize c
  | None => maxWorkspaceSize (call_builder call)
  end.

Definition batch_of (call : CompileCall) : Z := maxBatchSize (call_builder call).

Definition calibrator_of (call : CompileCall) : option TRTInt8Calibrator :=
  match call_config call with
  | Some c => cfg_int8Calibrator c
  | None => int8Calibrator (call_builder call)
  end.


(** ** Well-formed calls *)

(** The network the parser fills from a byte buffer. *)
Definition network_of (onnx_model : string) : INetworkDefinition :=
  {| creation_flags := N.shiftl 1 kEXPLICIT_BATCH; imported := Some onnx_model |}.

(** The objects made before the parse exist. *)
Definition parser_ready (be : Backend) : Prop :=
  creates_builder be = true /\ creates_network be = true
  /\ creates_parser be = true.

(** Every object the call asks for exists: the configuration is asked for
    by the code for TensorRT 7 only. *)
Definition context_ready (be : Backend) : Prop :=
  parser_ready be
  /\ (6 < NV_TENSORRT_MAJOR be -> creates_builder_config be = true).

(** The backend compiles this network, whatever the settings. *)
Definition compiles (be : Backend) (n : INetworkDefinition) : Prop :=
  forall call, call_network call = n -> compile be call <> None.

(** A well-formed input: the objects are created, both parses accept the
    bytes and the compile step accepts the network (spec 7: otherwise the
    call ends in [MalformedModel], [GraphCompileError] or
    [EngineBuildFailed]). *)
Definition well_formed (be : Backend) (onnx_model : string) : Prop :=
  context_ready be
  /\ ParseFromString be onnx_model <> None
  /\ parser_parse be onnx_model = true
  /\ compiles be (network_of onnx_model).

(** The bytes reach the build stage: the objects are created and both
    parses accept. *)
Definition accepted (be : Backend) (onnx_model : string) : Prop :=
  context_ready be
  /\ ParseFromString be onnx_model <> None
  /\ parser_parse be onnx_model = true.

(** Every compile step of a trace yielded an engine. *)
Definition builds_succeed (be : Backend) (t : list Event) : Prop :=
  forall call, In call (builds t) -> compile be call <> None.

(** An error record points at a node of the parsed model, or at none. *)
Definition node_index_valid (m : ModelProto) (e : IParserError) : Prop :=
  err_node e = -1 \/ 0 <= err_node e < Z.of_nat (List.length (node (graph m))).

(** ** The diagnostic of spec 4.1, written from its words *)

Definition node_header (index : Z) (n : NodeProto) : string :=
  "While parsing node number " ++ show_int index ++ " [" ++ op_type n
  ++ match output n with
     | [] => ""
     | first :: _ => " -> " ++ dquote ++ first ++ dquote
     end
  ++ "]:".

Definition informational (v : Severity) : bool :=
  match v with
  | kINFO | kVERBOSE => true
  | _ => false
  end.

Definition node_dump (be : Backend) (v : Severity) (n : NodeProto) : list string :=
  if informational v
  then ["--- Begin node ---"; DebugString be n; "--- End node ---"]
  else [].

(** For one record: the node index with operator type and first output name
    when the index is known, the node dump at informational verbosity, then
    file, line, function, code and description. *)
Definition diagnostic (be : Backend) (m : ModelProto) (v : Severity)
    (e : IParserError) : list string :=
  (if err_node e =? -1 then []
   else match nth_error (node (graph m)) (Z.to_nat (err_node e)) with
        | Some n => node_header (err_node e) n :: node_dump be v n
        | None => []
        end)%list
  ++ [error_line e].

(** How often a warning shows in a trace. *)
Definition count_warning (msg : string) (t : list Event) : nat :=
  List.length (filter (String.eqb msg) (warnings t)).

(** ** Sample collaborators *)

(** A backend described by its TensorRT release, its two parse verdicts, the
    error records of a failed parse and its capabilities; it compiles every
    network into engine 1. *)
Definition sample_backend (major : Z) (model : option ModelProto) (accepts : bool)
    (errs : list IParserError) (fp16 int8 : bool) : Backend :=
  {| NV_TENSORRT_MAJOR := major;
     creates_builder := true;
     creates_network := true;
     creates_parser := true;
     creates_builder_config := true;
     ParseFromString := fun _ => model;
     DebugString := fun n => "op_type: " ++ op_type n;
     parser_parse := fun _ => accepts;
     parser_errors := fun _ => errs;
     platformHasFastFp16 := fp16;
     platformHasFastInt8 := int8;
     buildEngineWithConfig := fun _ _ _ => Some 1%N;
     buildCudaEngine := fun _ _ => Some 1%N |}.

(** A model with a single node that has no outputs. *)
Definition lone_node : NodeProto :=
  {| op_type := "Conv"; input := ["x"]; output := [] |}.
Definition lone_model : ModelProto := {| graph := {| node := [lone_node] |} |}.

Definition error_at (index : Z) : IParserError :=
  {| err_node := index; err_file := "ModelImporter.cpp"; err_line := 134;
     err_func := "importModel"; err_code := 8; err_desc := "unsupported node" |}.

Definition cached_calibrator : TRTInt8Calibrator :=
  {| calibrator_id := 1%N; cache_empty := false |}.
Definition fresh_calibrator : TRTInt8Calibrator :=
  {| calibrator_id := 2%N; cache_empty := true |}.

(** ** Version strings *)

(** The conversion of an [int64_t] to [int]: reduction modulo 2^32 into the
    signed range. *)
Definition to_int32 (z : Z) : Z :=
  (z + 2147483648) mod 4294967296 - 2147483648.

(** The three locals of [onnx_ir_version_string]; [/] and [%] of C++
    truncate towards zero. *)
Definition onnx_ir_major (ir_version : Z) : Z :=
  to_int32 (Z.quot ir_version 1000000).
Definition onnx_ir_minor (ir_version : Z) : Z :=
  to_int32 (Z.quot (Z.rem ir_version 1000000) 10000).
Definition onnx_ir_patch (ir_version : Z) : Z :=
  to_int32 (Z.rem ir_version 10000).

(** [std::to_string] on an [int]. *)
Definition to_string (z : Z) : string := show_int z.

Definition onnx_ir_version_string (ir_version : Z) : string :=
  to_string (onnx_ir_major ir_version) ++ "."
  ++ to_string (onnx_ir_minor ir_version) ++ "."
  ++ to_string (onnx_ir_patch ir_version).

(** The constants of the libraries the file is compiled against, next to
    [NV_TENSORRT_MAJOR] of the backend. *)
Record LibraryVersions : Type := {
  IR_VERSION : Z;
  NV_TENSORRT_MINOR : Z;
  NV_TENSORRT_PATCH : Z
}.

(** [PrintVersion]: the lines it writes to [cout], each up to its [endl]. *)
Definition PrintVersion (be : Backend) (lib : LibraryVersions) : list string :=
  [ "Parser built against:";
    "  ONNX IR version:  " ++ onnx_ir_version_string (IR_VERSION lib);
    "  TensorRT version: " ++ show_int (NV_TENSORRT_MAJOR be) ++ "."
      ++ show_int (NV_TENSORRT_MINOR lib) ++ "."
      ++ show_int (NV_TENSORRT_PATCH lib) ].

(** Whether a string holds the separator of a version string. *)
Fixpoint has_dot (s : string) : bool :=
  match s with
  | EmptyString => false
  | String c s' => Ascii.eqb c "."%char || has_dot s'
  end.

(** The versions whose major part fits an [int]. *)
Definition major_fits (ir_version : Z) : Prop :=
  -2147483648 <= Z.quot ir_version 1000000 < 2147483648.

(** A backend that accepts every model at both parses and compiles none. *)
Definition no_engine_backend (major : Z) (int8 : bool) : Backend :=
  {| NV_TENSORRT_MAJOR := major;
     creates_builder := true;
     creates_network := true;
     creates_parser := true;
     creates_builder_config := true;
     ParseFromString := fun _ => Some lone_model;
     DebugString := fun n => op_type n;
     parser_parse := fun _ => true;
     parser_errors := fun _ => [];
     platformHasFastFp16 := true;
     platformHasFastInt8 := int8;
     buildEngineWithConfig := fun _ _ _ => None;
     buildCudaEngine := fun _ _ => None |}.

(** A context in which no builder can be created; both parses would reject
    the bytes. *)
Definition no_builder_backend : Backend :=
  {| NV_TENSORRT_MAJOR := 7;
     creates_builder := false;
     creates_network := true;
     creates_parser := true;
     creates_builder_config := true;
     ParseFromString := fun _ => None;
     DebugString := fun n => op_type n;
     parser_parse := fun _ => false;
     parser_errors := fun _ => [];
     platformHasFastFp16 := true;
     platformHasFastInt8 := true;
     buildEngineWithConfig := fun _ _ _ => Some 1%N;
     buildCudaEngine := fun _ _ => Some 1%N |}.

(** The report of one record, from the words of spec 3 and 4.1: the node
    header when the node is known, the node dump at informational
    verbosity, then the record's file, line, function, numeric code and
    description. *)
Definition record_report (be : Backend) (m : ModelProto) (v : Severity)
    (e : IParserError) : list string :=
  (match (if err_node e =? -1 then None
          else nth_error (node (graph m)) (Z.to_nat (err_node e))) with
   | Some n => node_header (err_node e) n :: node_dump be v n
   | None => []
   end
   ++ [ ("ERROR: " ++ err_file e ++ ":" ++ show_int (err_line e)
         ++ " In function " ++ err_func e ++ ":" ++ endl
         ++ "[" ++ show_int (err_code e) ++ "] " ++ err_desc e)%string ])%list.

(** * Properties *)

(** ** The trace monad *)

Lemma bind_ret_l {A B} (a : A) (k : A -> M B) : bind (ret a) k = k a.
Proof. unfold bind, ret. destruct (k a) as [t r]. reflexivity. Qed.

Lemma bind_ok {A B} (t t' : list Event) (a : A) (k : A -> M B) (r : Result B) :
  k a = (t', r) -> bind (t, Ok a) k = ((t ++ t')%list, r).
Proof. intros H. unfold bind. rewrite H. reflexivity. Qed.

Lemma cerr_lines_map_Cerr (ls : list string) : cerr_lines (map Cerr ls) = ls.
Proof. induction ls as [| l ls IH]; simpl; [reflexivity | now rewrite IH]. Qed.

Lemma builds_map_Cerr (ls : list string) : builds (map Cerr ls) = [].
Proof. induction ls as [| l ls IH]; simpl; auto. Qed.

Lemma scheduled_map_Cerr (ls : list string) : scheduled (map Cerr ls) = [].
Proof. induction ls as [| l ls IH]; simpl; auto. Qed.


(** ** The diagnostic reporter *)

Lemma informational_spec (v : Severity) :
  (severity_int kINFO <=? severity_int v) = informational v.
Proof. destruct v; reflexivity. Qed.

Lemma repeated_get_in_range {T} (xs : list T) (i : Z) :
  0 <= i < Z.of_nat (List.length xs) ->
  exists x, nth_error xs (Z.to_nat i) = Some x /\ repeated_get xs i = ret x.
Proof.
  intros [Hlo Hhi]. unfold repeated_get.
  destruct (i <? 0) eqn:Hneg; [apply Z.ltb_lt in Hneg; lia |].
  destruct (nth_error xs (Z.to_nat i)) as [x |] eqn:Hnth.
  - exists x. split; reflexivity.
  - apply nth_error_None in Hnth. lia.
Qed.

Lemma repeated_get_out_of_range {T} (xs : list T) (i : Z) :
  i < 0 \/ Z.of_nat (List.length xs) <= i ->
  repeated_get xs i = throw IndexOutOfRange.
Proof.
  intros H. unfold repeated_get.
  destruct (i <? 0) eqn:Hneg; [reflexivity |].
  apply Z.ltb_ge in Hneg.
  destruct (nth_error xs (Z.to_nat i)) as [x |] eqn:Hnth; [| reflexivity].
  assert (Hlt : (Z.to_nat i < List.length xs)%nat)
    by (apply nth_error_Some; congruence).
  lia.
Qed.

(** On a record whose node index is [-1] or inside the model, the reporter
    writes the diagnostic of spec 4.1 and returns. *)
Lemma report_error_diagnostic (be : Backend) (m : ModelProto) (v : Severity)
    (e : IParserError) :
  node_index_valid m e ->
  report_error be m v e = (map Cerr (diagnostic be m v e), Ok tt).
Proof.
  intros [Hunknown | Hrange]; unfold report_error, diagnostic.
  - rewrite Hunknown. reflexivity.
  - destruct (err_node e =? -1) eqn:Hm1; [apply Z.eqb_eq in Hm1; lia |].
    destruct (repeated_get_in_range (node (graph m)) (err_node e) Hrange)
      as [n [Hnth Hget]].
    rewrite Hget, Hnth. cbn [negb]. rewrite bind_ret_l.
    unfold node_header, node_dump. rewrite informational_spec.
    destruct (output n) as [| first outs]; destruct (informational v);
      reflexivity.
Qed.

Lemma report_errors_diagnostic (be : Backend) (m : ModelProto) (v : Severity)
    (errs : list IParserError) :
  Forall (node_index_valid m) errs ->
  report_errors be m v errs
  = (map Cerr (flat_map (diagnostic be m v) errs), Ok tt).
Proof.
  induction 1 as [| e errs He Hall IH]; [reflexivity |].
  cbn [report_errors flat_map].
  rewrite (report_error_diagnostic be m v e He), map_app.
  apply bind_ok. exact IH.
Qed.

Lemma error_line_in_diagnostic (be : Backend) (m : ModelProto) (v : Severity)
    (e : IParserError) :
  In (error_line e) (diagnostic be m v e).
Proof. unfold diagnostic. apply in_or_app. right. left. reflexivity. Qed.

(** A record whose node index is neither [-1] nor inside the model stops the
    reporter at the node access, before any line is written. *)
Lemma report_error_stray_index (be : Backend) (m : ModelProto) (v : Severity)
    (e : IParserError) :
  err_node e <> -1 ->
  err_node e < 0 \/ Z.of_nat (List.length (node (graph m))) <= err_node e ->
  report_error be m v e = ([], Throw IndexOutOfRange).
Proof.
  intros Hknown Hstray. unfold report_error.
  destruct (err_node e =? -1) eqn:Hm1; [apply Z.eqb_eq in Hm1; contradiction |].
  rewrite (repeated_get_out_of_range _ _ Hstray). reflexivity.
Qed.

(** ** Claims on the parse stage *)



(** C2, as the code has it: a record whose node index lies outside the
    parsed model is not guarded; the unchecked node access faults before
    anything is written. *)
Lemma stray_node_index_faults :
  report_errors (sample_backend 7 (Some lone_model) false [error_at 1] false false)
    lone_model kWARNING [error_at 1]
  = ([], Throw IndexOutOfRange).
Proof. reflexivity. Qed.

(** C2, amended.  When every error record carries a node index that is [-1]
    or an index into the parsed model's nodes, the reporting loop never
    fails and writes the ERROR line of every record; the empty output list
    is guarded: a model whose single node has no outputs yields the header
    without an output name, then the ERROR line. *)
Theorem report_errors_never_fails (be : Backend) (m : ModelProto) (v : Severity)
    (errs : list IParserError) :
  Forall (node_index_valid m) errs ->
  outcome (report_errors be m v errs) = Ok tt
  /\ (forall e, In e errs ->
       In (error_line e) (cerr_lines (trace (report_errors be m v errs))))
  /\ (forall op ins file line func code desc,
       let n := {| op_type := op; input := ins; output := [] |} in
       let e := {| err_node := 0; err_file := file; err_line := line;
                   err_func := func; err_code := code; err_desc := desc |} in
       report_errors be {| graph := {| node := [n] |} |} v [e]
       = (map Cerr (("While parsing node number 0 [" ++ op ++ "]:")%string
                    :: node_dump be v n ++ [error_line e])%list,
          Ok tt)).
Proof.
  intros Hvalid. rewrite (report_errors_diagnostic be m v errs Hvalid).
  split; [reflexivity | split].
  - intros e He. cbn [trace fst]. rewrite cerr_lines_map_Cerr.
    apply in_flat_map. exists e. split; [exact He |].
    apply error_line_in_diagnostic.
  - intros op ins file line func code desc n e.
    rewrite report_errors_diagnostic.
    + cbn [flat_map]. rewrite app_nil_r. reflexivity.
    + constructor; [| constructor]. right. cbn. lia.
Qed.

Lemma report_errors_never_fails_witness :
  outcome (report_errors
             (sample_backend 7 (Some lone_model) false [error_at 0] false false)
             lone_model kINFO [error_at 0; error_at (-1)]) = Ok tt.
Proof.
  apply (report_errors_never_fails
           (sample_backend 7 (Some lone_model) false [error_at 0] false false)
           lone_model kINFO [error_at 0; error_at (-1)]).
  repeat constructor; unfold node_index_valid; cbn; lia.
Defined.

(** Past the three factories of a call whose objects exist. *)
Ltac past_factories Hready :=
  let Hb := fresh "Hbuilder" in
  let Hn := fresh "Hnetwork" in
  let Hp := fresh "Hparser" in
  destruct Hready as (Hb & Hn & Hp);
  unfold onnxToTrtCtx, createInferBuilder, createNetworkV2, createParser;
  rewrite Hb, Hn, Hp; cbn.

(** C3, as the code has it: the builder is made, and checked by
    [InferObject], before the bytes are looked at; where no builder can be
    made the call ends in [InferObject]'s exception, not in "Could not parse
    ONNX from string". *)
Lemma no_builder_fails_before_validation :
  ParseFromString no_builder_backend "garbage" = None
  /\ onnxToTrtCtx no_builder_backend "garbage" false 8 1024%N None kWARNING false
     = ([], Throw EngineBuildFailed).
Proof. split; reflexivity. Qed.

(** C3, amended.  When the independent protobuf pass rejects the bytes, the
    call ends with an empty trace: the backend parser was never given the
    bytes and no compile step was invoked or scheduled, whatever the backend
    would have done.  Once the builder, the network and the parser have been
    created it ends in the [dmlc::Error] "Could not parse ONNX from string";
    when one of them cannot be created it ends in [InferObject]'s
    exception. *)
Theorem malformed_model_fails_before_backend_parse (be : Backend)
    (onnx_model : string) (fp16_mode : bool) (max_batch_size : Z)
    (max_workspace_size : N) (calibrator : option TRTInt8Calibrator)
    (verbosity : Severity) (debug_builder : bool) :
  ParseFromString be onnx_model = None ->
  trace (onnxToTrtCtx be onnx_model fp16_mode max_batch_size
           max_workspace_size calibrator verbosity debug_builder) = []
  /\ (parser_ready be ->
      outcome (onnxToTrtCtx be onnx_model fp16_mode max_batch_size
                 max_workspace_size calibrator verbosity debug_builder)
      = Throw (dmlc_Error "Could not parse ONNX from string"))
  /\ (~ parser_ready be ->
      outcome (onnxToTrtCtx be onnx_model fp16_mode max_batch_size
                 max_workspace_size calibrator verbosity debug_builder)
      = Throw EngineBuildFailed).
Proof.
  intros Hreject.
  unfold onnxToTrtCtx, createInferBuilder, createNetworkV2, createParser,
    parser_ready.
  destruct (creates_builder be); destruct (creates_network be);
    destruct (creates_parser be); cbn; try rewrite Hreject; cbn;
    (split; [reflexivity | split]);
    first [ intros _; reflexivity
          | intros (Hb & Hn & Hp); discriminate
          | intros Hnot; exfalso; apply Hnot; repeat split ].
Qed.

Lemma malformed_model_fails_before_backend_parse_witness :
  ParseFromString (sample_backend 7 None true [] true true) "garbage" = None
  /\ onnxToTrtCtx (sample_backend 7 None true [] true true) "garbage" true 8
       1024%N (Some fresh_calibrator) kWARNING false
     = ([], Throw (dmlc_Error "Could not parse ONNX from string")).
Proof.
  split; [reflexivity |].
  destruct (malformed_model_fails_before_backend_parse
              (sample_backend 7 None true [] true true) "garbage" true 8
              1024%N (Some fresh_calibrator) kWARNING false eq_refl)
    as (Htrace & Hready & _).
  specialize (Hready (conj eq_refl (conj eq_refl eq_refl))).
  destruct (onnxToTrtCtx (sample_backend 7 None true [] true true) "garbage"
              true 8 1024%N (Some fresh_calibrator) kWARNING false)
    as [t r].
  cbn in Htrace, Hready. subst. reflexivity.
Defined.

(** The whole run of a call whose bytes the backend parser rejects. *)
Lemma backend_rejection_run (be : Backend) (onnx_model : string)
    (fp16_mode : bool) (max_batch_size : Z) (max_workspace_size : N)
    (calibrator : option TRTInt8Calibrator) (verbosity : Severity)
    (debug_builder : bool) (m : ModelProto) :
  parser_ready be ->
  ParseFromString be onnx_model = Some m ->
  parser_parse be onnx_model = false ->
  Forall (node_index_valid m) (parser_errors be onnx_model) ->
  onnxToTrtCtx be onnx_model fp16_mode max_batch_size max_workspace_size
    calibrator verbosity debug_builder
  = (ParserParse onnx_model
       :: map Cerr (flat_map (diagnostic be m verbosity)
                      (parser_errors be onnx_model)),
     Throw GraphCompileError).
Proof.
  intros Hready Hmodel Hreject Hvalid. past_factories Hready.
  rewrite Hmodel, Hreject. cbn.
  rewrite (report_errors_diagnostic be m verbosity _ Hvalid). cbn.
  rewrite app_nil_r. reflexivity.
Qed.

(** The report of spec 4.1 is the diagnostic the reporter writes. *)
Lemma record_report_diagnostic (be : Backend) (m : ModelProto) (v : Severity)
    (e : IParserError) :
  record_report be m v e = diagnostic be m v e.
Proof.
  unfold record_report, diagnostic, error_line.
  destruct (err_node e =? -1); [reflexivity |].
  destruct (nth_error (node (graph m)) (Z.to_nat (err_node e))); reflexivity.
Qed.

(** C7, as the code has it: a record whose node index lies outside the
    parsed model ends the call at the node access; the call does not end in
    "Cannot parse ONNX into TensorRT Engine" and the record after it is
    never reported. *)
Lemma stray_record_ends_call_early :
  onnxToTrtCtx
    (sample_backend 7 (Some lone_model) false [error_at 3; error_at 0] true true)
    "model" false 8 1024%N None kWARNING false
  = ([ParserParse "model"], Throw IndexOutOfRange).
Proof. reflexivity. Qed.

(** C7, amended.  When the bytes pass the protobuf pass and the backend
    parser rejects them with error records that each point at a node of the
    parsed model or at none, the call walks the backend's whole list of
    records and writes, for each in order, the node header with operator
    type and first output name when the node is known, the node dump at
    informational verbosity, and the ERROR line with file, line, function,
    numeric code and description; it then ends in the [dmlc::Error] "Cannot
    parse ONNX into TensorRT Engine" and invokes or schedules no compile
    step. *)
Theorem backend_rejection_reports_every_error (be : Backend)
    (onnx_model : string) (fp16_mode : bool) (max_batch_size : Z)
    (max_workspace_size : N) (calibrator : option TRTInt8Calibrator)
    (verbosity : Severity) (debug_builder : bool) (m : ModelProto) :
  parser_ready be ->
  ParseFromString be onnx_model = Some m ->
  parser_parse be onnx_model = false ->
  Forall (node_index_valid m) (parser_errors be onnx_model) ->
  outcome (onnxToTrtCtx be onnx_model fp16_mode max_batch_size
             max_workspace_size calibrator verbosity debug_builder)
  = Throw (dmlc_Error "Cannot parse ONNX into TensorRT Engine")
  /\ cerr_lines (trace (onnxToTrtCtx be onnx_model fp16_mode max_batch_size
                          max_workspace_size calibrator verbosity debug_builder))
     = flat_map (record_report be m verbosity) (parser_errors be onnx_model)
  /\ builds (trace (onnxToTrtCtx be onnx_model fp16_mode max_batch_size
                       max_workspace_size calibrator verbosity debug_builder))
     = []
  /\ scheduled (trace (onnxToTrtCtx be onnx_model fp16_mode max_batch_size
                          max_workspace_size calibrator verbosity debug_builder))
     = [].
Proof.
  intros Hready Hmodel Hreject Hvalid.
  rewrite (backend_rejection_run be onnx_model fp16_mode max_batch_size
             max_workspace_size calibrator verbosity debug_builder m
             Hready Hmodel Hreject Hvalid).
  cbn [outcome trace fst snd cerr_lines builds scheduled].
  rewrite cerr_lines_map_Cerr, builds_map_Cerr, scheduled_map_Cerr.
  rewrite (flat_map_ext _ _ (record_report_diagnostic be m verbosity)).
  repeat split.
Qed.

Lemma backend_rejection_reports_every_error_witness :
  cerr_lines (trace (onnxToTrtCtx
      (sample_backend 6 (Some lone_model) false [error_at 0; error_at (-1)] true true)
      "model" true 8 1024%N (Some fresh_calibrator) kERROR true))
  = ["While parsing node number 0 [Conv]:";
     "ERROR: ModelImporter.cpp:134 In function importModel:" ++ endl
       ++ "[8] unsupported node";
     "ERROR: ModelImporter.cpp:134 In function importModel:" ++ endl
       ++ "[8] unsupported node"].
Proof.
  apply (backend_rejection_reports_every_error
           (sample_backend 6 (Some lone_model) false [error_at 0; error_at (-1)]
              true true)
           "model" true 8 1024%N (Some fresh_calibrator) kERROR true lone_model).
  - repeat split.
  - reflexivity.
  - reflexivity.
  - repeat constructor; unfold node_index_valid; cbn; lia.
Defined.

(** ** Claims on the build stage *)

(** Past the factories and both parses of a call that reaches the build
    stage; two goals are left, the code for TensorRT 7 (with its
    configuration created) and the code for TensorRT 6 and older. *)
Ltac past_parses Hctx Em Hparse :=
  let Hready := fresh "Hready" in
  let Hconfig := fresh "Hconfig" in
  let Hgate := fresh "Hgate" in
  destruct Hctx as (Hready & Hconfig);
  past_factories Hready;
  rewrite Em, Hparse; cbn;
  match type of Hconfig with
  | 6 < NV_TENSORRT_MAJOR ?be -> _ =>
      destruct (6 <? NV_TENSORRT_MAJOR be) eqn:Hgate;
      [ apply Z.ltb_lt in Hgate; try unfold createBuilderConfig;
        rewrite (Hconfig Hgate); cbn
      | apply Z.ltb_ge in Hgate ]
  end.

(** Entering the build stage of a well-formed call. *)
Ltac enter_build Hwf :=
  let Hctx := fresh "Hctx" in
  let Hmodel := fresh "Hmodel" in
  let Hparse := fresh "Hparse" in
  let Hcompiles := fresh "Hcompiles" in
  let Em := fresh "Em" in
  destruct Hwf as (Hctx & Hmodel & Hparse & Hcompiles);
  match type of Hmodel with
  | ?p <> None => destruct p as [?m |] eqn:Em; [| congruence]
  end;
  past_parses Hctx Em Hparse.

(** Entering the build stage of an accepted call. *)
Ltac enter_accepted Hacc :=
  let Hctx := fresh "Hctx" in
  let Hmodel := fresh "Hmodel" in
  let Hparse := fresh "Hparse" in
  let Em := fresh "Em" in
  destruct Hacc as (Hctx & Hmodel & Hparse);
  match type of Hmodel with
  | ?p <> None => destruct p as [?m |] eqn:Em; [| congruence]
  end;
  past_parses Hctx Em Hparse.

(** A compile step on the network of a well-formed call yields an engine. *)
Ltac compile_step :=
  match goal with
  | Hc : compiles ?be _ |- context [buildEngineWithConfig ?be ?b ?n ?c] =>
      let E := fresh "Hengine" in
      destruct (buildEngineWithConfig be b n c) as [?engine |] eqn:E;
      [| exfalso;
         exact (Hc {| call_builder := b; call_network := n;
                      call_config := Some c |} eq_refl E)]
  | Hc : compiles ?be _ |- context [buildCudaEngine ?be ?b ?n] =>
      let E := fresh "Hengine" in
      destruct (buildCudaEngine be b n) as [?engine |] eqn:E;
      [| exfalso;
         exact (Hc {| call_builder := b; call_network := n;
                      call_config := None |} eq_refl E)]
  end.

(** A compile step on any path, with either answer of the backend. *)
Ltac any_compile_step :=
  match goal with
  | |- context [buildEngineWithConfig ?be ?b ?n ?c] =>
      let E := fresh "Hengine" in
      destruct (buildEngineWithConfig be b n c) as [?engine |] eqn:E
  | |- context [buildCudaEngine ?be ?b ?n] =>
      let E := fresh "Hengine" in
      destruct (buildCudaEngine be b n) as [?engine |] eqn:E
  end.

(** A premise [builds_succeed] on a trace whose compile step yielded no
    engine. *)
Ltac failed_build_excluded Hs :=
  exfalso; unfold builds_succeed in Hs; eapply Hs;
  [ cbn; left; reflexivity | unfold compile; cbn; eassumption ].





(** C4, as the code has it: on the code for TensorRT 6 and older the
    calibrator is attached before the compile step; when that step yields no
    engine the call ends there, with a calibrator attached whose cache is
    empty and no background build scheduled. *)
Lemma failed_build_schedules_nothing :
  platformHasFastInt8 (no_engine_backend 6 true) = true
  /\ isCacheEmpty fresh_calibrator = true
  /\ onnxToTrtCtx (no_engine_backend 6 true) "model" false 8 1024%N
       (Some fresh_calibrator) kWARNING false
     = ([ParserParse "model"; SetMaxBatchSize 8; SetMaxWorkspaceSize 1024%N;
         SetDebugSync false; SetInt8Mode true;
         SetInt8Calibrator fresh_calibrator;
         BuildEngine
           {| call_builder :=
                {| maxBatchSize := 8; fp16Mode := false;
                   maxWorkspaceSize := 1024%N; debugSync := false;
                   int8Mode := true;
                   int8Calibrator := Some fresh_calibrator |};
              call_network :=
                {| creation_flags := 1%N; imported := Some "model" |};
              call_config := None |}],
        Throw EngineBuildFailed).
Proof. repeat split. Qed.

(** C4, amended.  In a call that reaches the build stage and whose
    synchronous compile step yields an engine, a background build is
    scheduled exactly when a calibrator is still attached after the int8
    capability check and its cache is empty.  The pending handle is then the
    scheduled task: the compile step on the builder and the network of the
    primary step, with the same batch ceiling, workspace budget, debug and
    fp16 settings, int8 on and the calibrator attached.  With a calibrator
    whose cache is not empty nothing is scheduled, the pending handle is
    empty and the one synchronous compile step yields the returned
    engine. *)
Theorem background_build_iff_empty_cache (be : Backend) (onnx_model : string)
    (fp16_mode : bool) (max_batch_size : Z) (max_workspace_size : N)
    (calibrator : option TRTInt8Calibrator) (verbosity : Severity)
    (debug_builder : bool) :
  accepted be onnx_model ->
  builds_succeed be
    (trace (onnxToTrtCtx be onnx_model fp16_mode max_batch_size
              max_workspace_size calibrator verbosity debug_builder)) ->
  exists t r call engine,
    onnxToTrtCtx be onnx_model fp16_mode max_batch_size max_workspace_size
      calibrator verbosity debug_builder = (t, Ok r)
    /\ builds t = [call] /\ compile be call = Some engine
    /\ ctx_engine r = Some engine
    /\ (ctx_future r <> None <->
        exists c, calibrator = Some c /\ platformHasFastInt8 be = true
                  /\ isCacheEmpty c = true)
    /\ scheduled t = match ctx_future r with
                     | Some task => [task]
                     | None => []
                     end
    /\ (forall task, ctx_future r = Some task ->
        call_builder task = call_builder call
        /\ call_network task = network_of onnx_model
        /\ batch_of task = max_batch_size
        /\ workspace_of task = max_workspace_size
        /\ uses_debug task = debug_builder
        /\ uses_fp16 task = uses_fp16 call
        /\ uses_int8 task = true
        /\ calibrator_of task = calibrator)
    /\ (forall c, calibrator = Some c -> isCacheEmpty c = false ->
        ctx_future r = None /\ scheduled t = []).
Proof.
  intros Hacc.
  enter_accepted Hacc; destruct fp16_mode;
    destruct (platformHasFastFp16 be); destruct debug_builder;
    destruct calibrator as [c |];
    try (destruct (platformHasFastInt8 be) eqn:Hint8);
    try (destruct (isCacheEmpty c) eqn:Hcache);
    cbn; any_compile_step; cbn; try rewrite Hcache; cbn; intros Hs;
    try (failed_build_excluded Hs);
    (eexists; eexists; eexists; eexists; split; [reflexivity |]); cbn;
    (split; [reflexivity |]);
    (split; [eassumption |]);
    (split; [reflexivity |]);
    (split; [split; [intros Hsome; try congruence; eauto
                    | intros (c' & Hc' & Hi' & He'); congruence] |]);
    (split; [reflexivity |]);
    (split; [intros task Htask; try discriminate;
             injection Htask as Htask; subst task; repeat split |]);
    intros c' Hc' He'; try congruence; split; reflexivity.
Qed.

Lemma background_build_iff_empty_cache_witness :
  accepted (sample_backend 7 (Some lone_model) true [] true true) "model"
  /\ exists t r task,
       onnxToTrtCtx (sample_backend 7 (Some lone_model) true [] true true)
         "model" true 8 1024%N (Some fresh_calibrator) kWARNING false
       = (t, Ok r)
       /\ ctx_future r = Some task /\ scheduled t = [task]
       /\ uses_int8 task = true.
Proof.
  assert (Hacc : accepted
                   (sample_backend 7 (Some lone_model) true [] true true) "model")
    by (repeat split; try reflexivity; discriminate).
  split; [exact Hacc |].
  destruct (background_build_iff_empty_cache
              (sample_backend 7 (Some lone_model) true [] true true)
              "model" true 8 1024%N (Some fresh_calibrator) kWARNING false Hacc)
    as (t & r & call & engine & Hrun & _ & _ & _ & Hiff & Hsched & Htask & _).
  - intros call _. unfold compile. destruct (call_config call); discriminate.
  - destruct (ctx_future r) as [task |] eqn:Hfuture.
    + exists t, r, task. repeat split; try assumption.
      apply (Htask task eq_refl).
    + exfalso. apply Hiff; [| reflexivity].
      exists fresh_calibrator. repeat split.
Defined.




(** C6, as the code has it: with half precision requested on a platform
    without fast fp16 and a calibrator on a platform without int8, the call
    emits two warnings. *)
Lemma two_downgrades_two_warnings :
  warnings (trace (onnxToTrtCtx
      (sample_backend 7 (Some lone_model) true [] false false)
      "model" true 8 1024%N (Some fresh_calibrator) kWARNING false))
  = ["TensorRT can't use fp16 on this platform";
     "TensorRT can't use int8 on this platform"].
Proof. reflexivity. Qed.

(** C6, amended.  In a call with [fp16_mode] on that reaches the build
    stage and whose synchronous compile step yields an engine, that step is
    the only one on the calling thread and its engine is the returned,
    non-null handle.  Without fast fp16 on the platform the fp16 warning is
    emitted exactly once, no fp16 setter is called and the compile step runs
    without fp16; with it the fp16 flag is set for the compile step and the
    fp16 warning is absent.  The only other warning of a call is that of the
    int8 downgrade, emitted when a calibrator meets a platform without
    int8. *)
Theorem fp16_follows_platform_support (be : Backend) (onnx_model : string)
    (max_batch_size : Z) (max_workspace_size : N)
    (calibrator : option TRTInt8Calibrator) (verbosity : Severity)
    (debug_builder : bool) :
  accepted be onnx_model ->
  builds_succeed be
    (trace (onnxToTrtCtx be onnx_model true max_batch_size
              max_workspace_size calibrator verbosity debug_builder)) ->
  exists t r call engine,
    onnxToTrtCtx be onnx_model true max_batch_size max_workspace_size
      calibrator verbosity debug_builder = (t, Ok r)
    /\ builds t = [call] /\ compile be call = Some engine
    /\ ctx_engine r = Some engine
    /\ uses_fp16 call = platformHasFastFp16 be
    /\ count_warning fp16_warning t
       = (if platformHasFastFp16 be then 0 else 1)%nat
    /\ (In (SetFlag kFP16) t \/ In (SetFp16Mode true) t
        <-> platformHasFastFp16 be = true)
    /\ warnings t
       = ((if platformHasFastFp16 be then [] else [fp16_warning])
          ++ match calibrator with
             | Some _ => if platformHasFastInt8 be then [] else [int8_warning]
             | None => []
             end)%list.
Proof.
  intros Hacc.
  enter_accepted Hacc; destruct (platformHasFastFp16 be);
    destruct debug_builder; destruct calibrator as [c |];
    try (destruct (platformHasFastInt8 be));
    try (destruct (isCacheEmpty c) eqn:Hcache);
    cbn; any_compile_step; cbn; try rewrite Hcache; cbn; intros Hs;
    try (failed_build_excluded Hs);
    (eexists; eexists; eexists; eexists; split; [reflexivity |]); cbn;
    (split; [reflexivity |]);
    (split; [eassumption |]);
    (split; [reflexivity |]);
    (split; [reflexivity |]);
    (split; [reflexivity |]);
    (split; [split; [intros Hin; intuition discriminate
                    | intros Hfp16; first [discriminate Hfp16 | auto 12]] |]);
    reflexivity.
Qed.

Lemma fp16_follows_platform_support_witness :
  accepted (sample_backend 6 (Some lone_model) true [] false true) "model"
  /\ exists t r,
       onnxToTrtCtx (sample_backend 6 (Some lone_model) true [] false true)
         "model" true 8 1024%N None kWARNING false
       = (t, Ok r)
       /\ warnings t = [fp16_warning] /\ ctx_engine r = Some 1%N.
Proof.
  assert (Hacc : accepted
                   (sample_backend 6 (Some lone_model) true [] false true) "model")
    by (repeat split; try reflexivity; try discriminate; cbn; lia).
  split; [exact Hacc |].
  destruct (fp16_follows_platform_support
              (sample_backend 6 (Some lone_model) true [] false true)
              "model" 8 1024%N None kWARNING false Hacc)
    as (t & r & call & engine & Hrun & Hbuilds & Hcompile & Hengine & _ & _ & _ & Hwarn).
  - intros call _. unfold compile. destruct (call_config call); discriminate.
  - exists t, r. repeat split; [exact Hrun | exact Hwarn |].
    rewrite Hengine, <- Hcompile. unfold compile.
    destruct (call_config call); reflexivity.
Defined.

(** ** The order of the int8 settings and the primary compile step *)

(** Against TensorRT 6 and older the primary compile step comes after the
    int8 settings and sees them. *)
Lemma legacy_primary_build_reflects_int8 (be : Backend) (onnx_model : string)
    (fp16_mode : bool) (max_batch_size : Z) (max_workspace_size : N)
    (c : TRTInt8Calibrator) (verbosity : Severity) (debug_builder : bool) :
  NV_TENSORRT_MAJOR be <= 6 ->
  well_formed be onnx_model ->
  platformHasFastInt8 be = true ->
  exists t r call,
    onnxToTrtCtx be onnx_model fp16_mode max_batch_size max_workspace_size
      (Some c) verbosity debug_builder = (t, Ok r)
    /\ builds t = [call]
    /\ uses_int8 call = true /\ calibrator_of call = Some c.
Proof.
  intros Hmajor Hwf Hint8. enter_build Hwf; [exfalso; lia |].
  rewrite Hint8.
  destruct fp16_mode; destruct (platformHasFastFp16 be);
    destruct (isCacheEmpty c) eqn:Hcache;
    cbn; compile_step; cbn; try rewrite Hcache; cbn;
    (eexists; eexists; eexists; split; [reflexivity |]); cbn;
    repeat split.
Qed.


(** C1, on the code built against TensorRT 7: with a calibrator whose cache
    is populated on a platform with int8, the only compile step of the call
    runs before [setFlag(kINT8)] and [setInt8Calibrator]; the engine it
    returns was built without the int8 flag and without the calibrator. *)
Theorem trt7_primary_build_precedes_int8 :
  onnxToTrtCtx (sample_backend 7 (Some lone_model) true [] true true)
    "model" false 8 1024%N (Some cached_calibrator) kWARNING false
  = ([ParserParse "model"; SetMaxBatchSize 8; SetMaxWorkspaceSize 1024%N;
      BuildEngine
        {| call_builder :=
             {| maxBatchSize := 8; fp16Mode := false; maxWorkspaceSize := 0%N;
                debugSync := false; int8Mode := false; int8Calibrator := None |};
           call_network := {| creation_flags := 1%N; imported := Some "model" |};
           call_config :=
             Some {| flags := 0%N; cfg_maxWorkspaceSize := 1024%N;
                     cfg_int8Calibrator := None |} |};
      SetFlag kINT8; SetInt8Calibrator cached_calibrator],
     Ok {| ctx_engine := Some 1%N;
           ctx_parser := Some {| parser_logger :=
                                   {| logger_verbosity := kWARNING |} |};
           ctx_logger := Some {| logger_verbosity := kWARNING |};
           ctx_future := None |})
  /\ map uses_int8
       (builds (trace (onnxToTrtCtx
                         (sample_backend 7 (Some lone_model) true [] true true)
                         "model" false 8 1024%N (Some cached_calibrator)
                         kWARNING false)))
     = [false].
Proof. split; reflexivity. Qed.

(** ** The background build *)

(** X14.  Scheduling is the last thing the calling thread does: after [std::async]
    has taken the builder, the network and the configuration, no further
    event follows, and the pending handle is the scheduled task. *)
Lemma scheduling_is_last_event (be : Backend) (onnx_model : string)
    (fp16_mode : bool) (max_batch_size : Z) (max_workspace_size : N)
    (calibrator : option TRTInt8Calibrator) (verbosity : Severity)
    (debug_builder : bool) (t : list Event) (r : Ctx) (task : CompileCall) :
  onnxToTrtCtx be onnx_model fp16_mode max_batch_size max_workspace_size
    calibrator verbosity debug_builder = (t, Ok r) ->
  ctx_future r = Some task ->
  exists t0, t = (t0 ++ [Async task])%list /\ scheduled t0 = [].
Proof.
  unfold onnxToTrtCtx, createInferBuilder, createNetworkV2, createParser,
    createBuilderConfig.
  destruct (creates_builder be); [| discriminate].
  destruct (creates_network be); [| discriminate].
  destruct (creates_parser be); [| discriminate].
  cbn.
  destruct (ParseFromString be onnx_model) as [m |]; [| discriminate].
  cbn. destruct (parser_parse be onnx_model); cbn.
  - destruct (6 <? NV_TENSORRT_MAJOR be);
      try (destruct (creates_builder_config be); [| discriminate]);
      destruct fp16_mode;
      destruct (platformHasFastFp16 be); destruct debug_builder;
      destruct calibrator as [c |];
      try (destruct (platformHasFastInt8 be));
      try (destruct (isCacheEmpty c) eqn:Hcache);
      cbn; any_compile_step;
      cbn; try rewrite Hcache; cbn;
      intros Hrun Hfuture; inversion Hrun; subst; cbn in Hfuture;
      try discriminate; inversion Hfuture; subst;
      match goal with
      | |- exists t0, ?l = _ /\ _ =>
          exists (removelast l); split; reflexivity
      end.
  - destruct (report_errors be m verbosity (parser_errors be onnx_model))
      as [t' [[] | e]]; cbn; discriminate.
Qed.

(** Once it runs, the scheduled task ends in an engine or in the failure of
    its own compile step. *)
Lemma run_task_resolves (be : Backend) (task : CompileCall) :
  (exists engine, compile be task = Some engine /\ run_task be task = Ok engine)
  \/ (compile be task = None /\ run_task be task = Throw EngineBuildFailed).
Proof.
  unfold run_task. destruct (compile be task) as [engine |].
  - left. exists engine. split; reflexivity.
  - right. split; reflexivity.
Qed.

(** * Beyond the claims *)

(** ** onnx_ir_version_string and PrintVersion *)

Lemma to_int32_small (z : Z) :
  -2147483648 <= z < 2147483648 -> to_int32 z = z.
Proof.
  intros Hz. unfold to_int32.
  rewrite Z.mod_small by lia. lia.
Qed.

Lemma to_int32_range (z : Z) : -2147483648 <= to_int32 z < 2147483648.
Proof.
  unfold to_int32.
  pose proof (Z.mod_pos_bound (z + 2147483648) 4294967296 eq_refl). lia.
Qed.

Lemma minor_no_wrap (v : Z) :
  onnx_ir_minor v = Z.quot (Z.rem v 1000000) 10000.
Proof.
  unfold onnx_ir_minor. apply to_int32_small.
  Z.to_euclidean_division_equations. lia.
Qed.

Lemma patch_no_wrap (v : Z) : onnx_ir_patch v = Z.rem v 10000.
Proof.
  unfold onnx_ir_patch. apply to_int32_small.
  Z.to_euclidean_division_equations. lia.
Qed.

Lemma quot_rem_recompose (v : Z) :
  Z.quot v 1000000 * 1000000 + Z.quot (Z.rem v 1000000) 10000 * 10000
  + Z.rem v 10000 = v.
Proof. Z.to_euclidean_division_equations. lia. Qed.

(** X1.  The three parts of the version string add up to the version again
    exactly when the major part fits an [int]: the minor and patch parts
    never wrap, the major part does beyond 2^31 - 1. *)
Theorem ir_version_parts_recompose (ir_version : Z) :
  onnx_ir_major ir_version * 1000000 + onnx_ir_minor ir_version * 10000
  + onnx_ir_patch ir_version = ir_version
  <-> major_fits ir_version.
Proof.
  rewrite minor_no_wrap, patch_no_wrap. unfold onnx_ir_major, major_fits.
  pose proof (quot_rem_recompose ir_version) as Hsum.
  split.
  - intros Hparts.
    assert (Hsame : to_int32 (Z.quot ir_version 1000000)
                    = Z.quot ir_version 1000000) by lia.
    rewrite <- Hsame. apply to_int32_range.
  - intros Hfits. rewrite (to_int32_small _ Hfits). exact Hsum.
Qed.

(** *** Decimal text *)

Lemma digits_no_dot (u : Decimal.uint) :
  has_dot (NilEmpty.string_of_uint u) = false.
Proof. induction u; cbn; auto. Qed.

Lemma show_int_no_dot (z : Z) : has_dot (show_int z) = false.
Proof.
  unfold show_int, NilZero.string_of_int, NilZero.string_of_uint.
  destruct (Z.to_int z) as [u | u]; destruct u; cbn;
    try reflexivity; apply digits_no_dot.
Qed.

Lemma to_int_not_nil (z : Z) :
  Z.to_int z <> Decimal.Pos Decimal.Nil /\ Z.to_int z <> Decimal.Neg Decimal.Nil.
Proof.
  destruct z as [| p | p]; cbn; split; try discriminate;
    intros H; injection H as H; exact (DecimalPos.Unsigned.to_uint_nonnil p H).
Qed.

Lemma show_int_inj (a b : Z) : show_int a = show_int b -> a = b.
Proof.
  unfold show_int. intros Heq.
  destruct (to_int_not_nil a) as [Ha1 Ha2].
  destruct (to_int_not_nil b) as [Hb1 Hb2].
  pose proof (NilZero.isi (Z.to_int a) Ha1 Ha2) as Hpa.
  pose proof (NilZero.isi (Z.to_int b) Hb1 Hb2) as Hpb.
  rewrite Heq, Hpb in Hpa. injection Hpa as Hints.
  rewrite <- (DecimalZ.of_to a), <- (DecimalZ.of_to b), Hints. reflexivity.
Qed.

(** Two dotted strings agree only if they agree before and after the first
    dot, when the heads hold no dot. *)
Lemma split_at_dot (a a' x x' : string) :
  has_dot a = false -> has_dot a' = false ->
  a ++ String "."%char x = a' ++ String "."%char x' ->
  a = a' /\ x = x'.
Proof.
  revert a'. induction a as [| c a IH]; intros [| c' a'] Ha Ha' Heq; cbn in *.
  - injection Heq as Hx. split; [reflexivity | exact Hx].
  - injection Heq as Hc Hx. subst c'. discriminate.
  - injection Heq as Hc Hx. subst c. discriminate.
  - injection Heq as Hc Hx. subst c'.
    apply orb_false_iff in Ha as [_ Ha]. apply orb_false_iff in Ha' as [_ Ha'].
    destruct (IH a' Ha Ha' Hx) as [Has Hxs]. subst. split; reflexivity.
Qed.

Lemma dotted_triple_inj (a b c a' b' c' : Z) :
  show_int a ++ "." ++ show_int b ++ "." ++ show_int c
  = show_int a' ++ "." ++ show_int b' ++ "." ++ show_int c' ->
  a = a' /\ b = b' /\ c = c'.
Proof.
  intros Heq. cbn [append] in Heq.
  apply split_at_dot in Heq as [Ha Hrest]; try apply show_int_no_dot.
  apply split_at_dot in Hrest as [Hb Hc]; try apply show_int_no_dot.
  repeat split; apply show_int_inj; assumption.
Qed.

(** X2.  For a version from 0 up to 2147483647999999 the string is the
    usual decomposition: the version divided by 1000000, the next two
    decimal digit pairs as a number below 100, and the last four as a number
    below 10000, joined by dots. *)
Theorem ir_version_string_nonnegative (ir_version : Z) :
  0 <= ir_version < 2147483648000000 ->
  onnx_ir_version_string ir_version
  = show_int (ir_version / 1000000) ++ "."
    ++ show_int ((ir_version / 10000) mod 100) ++ "."
    ++ show_int (ir_version mod 10000)
  /\ 0 <= onnx_ir_major ir_version
  /\ 0 <= onnx_ir_minor ir_version < 100
  /\ 0 <= onnx_ir_patch ir_version < 10000.
Proof.
  intros Hrange.
  assert (Hmajor : onnx_ir_major ir_version = ir_version / 1000000).
  { unfold onnx_ir_major. rewrite to_int32_small;
      Z.to_euclidean_division_equations; lia. }
  assert (Hminor : onnx_ir_minor ir_version = (ir_version / 10000) mod 100).
  { rewrite minor_no_wrap. Z.to_euclidean_division_equations. lia. }
  assert (Hpatch : onnx_ir_patch ir_version = ir_version mod 10000).
  { rewrite patch_no_wrap. Z.to_euclidean_division_equations. lia. }
  unfold onnx_ir_version_string, to_string.
  rewrite Hmajor, Hminor, Hpatch.
  split; [reflexivity |].
  Z.to_euclidean_division_equations. lia.
Qed.

Lemma ir_version_string_nonnegative_witness :
  0 <= 1020003 < 2147483648000000
  /\ onnx_ir_version_string 1020003 = "1.2.3".
Proof.
  assert (Hrange : 0 <= 1020003 < 2147483648000000) by lia.
  split; [exact Hrange |].
  destruct (ir_version_string_nonnegative 1020003 Hrange) as [Hstring _].
  rewrite Hstring. reflexivity.
Defined.

Lemma ir_version_string_inj (v w : Z) :
  major_fits v -> major_fits w ->
  onnx_ir_version_string v = onnx_ir_version_string w ->
  v = w.
Proof.
  intros Hv Hw Heq. unfold onnx_ir_version_string, to_string in Heq.
  apply dotted_triple_inj in Heq as (Hmajor & Hminor & Hpatch).
  rewrite !minor_no_wrap in Hminor. rewrite !patch_no_wrap in Hpatch.
  unfold onnx_ir_major in Hmajor.
  rewrite (to_int32_small _ Hv), (to_int32_small _ Hw) in Hmajor.
  rewrite <- (quot_rem_recompose v), <- (quot_rem_recompose w).
  rewrite Hmajor, Hminor, Hpatch. reflexivity.
Qed.

(** X3.  Two versions whose major parts fit an [int] and that print the
    same string are the same version. *)
Theorem ir_version_string_unambiguous (v w : Z) :
  major_fits v -> major_fits w ->
  onnx_ir_version_string v = onnx_ir_version_string w ->
  v = w.
Proof. exact (ir_version_string_inj v w). Qed.

Lemma ir_version_string_unambiguous_witness :
  major_fits 7 /\ major_fits (3 + 4)
  /\ onnx_ir_version_string 7 = onnx_ir_version_string (3 + 4)
  /\ 7 = 3 + 4.
Proof.
  assert (H7 : major_fits 7) by (unfold major_fits; cbn; lia).
  assert (H34 : major_fits (3 + 4)) by (unfold major_fits; cbn; lia).
  split; [exact H7 | split; [exact H34 | split; [reflexivity |]]].
  apply (ir_version_string_unambiguous 7 (3 + 4) H7 H34). reflexivity.
Defined.

(** X4.  [PrintVersion] writes three lines, and the lines tell the library
    versions apart: two builds that print the same report have the same
    TensorRT major, minor and patch numbers, and the same ONNX IR version
    when the major parts of their IR versions fit an [int]. *)
Theorem PrintVersion_identifies_versions (be be' : Backend)
    (lib lib' : LibraryVersions) :
  PrintVersion be lib = PrintVersion be' lib' ->
  NV_TENSORRT_MAJOR be = NV_TENSORRT_MAJOR be'
  /\ NV_TENSORRT_MINOR lib = NV_TENSORRT_MINOR lib'
  /\ NV_TENSORRT_PATCH lib = NV_TENSORRT_PATCH lib'
  /\ (major_fits (IR_VERSION lib) -> major_fits (IR_VERSION lib') ->
      IR_VERSION lib = IR_VERSION lib').
Proof.
  intros Heq. unfold PrintVersion in Heq.
  injection Heq as Hir Htrt.
  apply dotted_triple_inj in Htrt as (Hmajor & Hminor & Hpatch).
  repeat split; try assumption.
  intros Hfits Hfits'. exact (ir_version_string_inj _ _ Hfits Hfits' Hir).
Qed.

Lemma PrintVersion_identifies_versions_witness :
  NV_TENSORRT_MAJOR (sample_backend 7 None true [] true true)
  = NV_TENSORRT_MAJOR (sample_backend 7 (Some lone_model) false [] false false).
Proof.
  pose (lib := {| IR_VERSION := 7; NV_TENSORRT_MINOR := 0;
                  NV_TENSORRT_PATCH := 11 |}).
  destruct (PrintVersion_identifies_versions
              (sample_backend 7 None true [] true true)
              (sample_backend 7 (Some lone_model) false [] false false)
              lib lib eq_refl) as (Hmajor & _).
  exact Hmajor.
Defined.

(** ** The parse stage on every list of error records *)

Lemma warnings_map_Cerr (ls : list string) : warnings (map Cerr ls) = [].
Proof. induction ls as [| l ls IH]; simpl; auto. Qed.

Lemma not_cerr_not_in (e : Event) (ls : list string) :
  (forall l, e <> Cerr l) -> ~ In e (map Cerr ls).
Proof.
  intros Hne Hin. apply in_map_iff in Hin as (l & Hl & _).
  exact (Hne l (eq_sym Hl)).
Qed.

(** A record either points at a node or at none, or it is stray. *)
Lemma node_index_cases (m : ModelProto) (e : IParserError) :
  node_index_valid m e
  \/ (err_node e <> -1
      /\ (err_node e < 0 \/ Z.of_nat (List.length (node (graph m))) <= err_node e)).
Proof. unfold node_index_valid. lia. Qed.

(** The loop up to the first stray record: the records before it are
    reported, the loop ends there. *)
Lemma report_errors_stops_at_stray (be : Backend) (m : ModelProto)
    (v : Severity) (before after : list IParserError) (e : IParserError) :
  Forall (node_index_valid m) before ->
  err_node e <> -1 ->
  err_node e < 0 \/ Z.of_nat (List.length (node (graph m))) <= err_node e ->
  report_errors be m v (before ++ e :: after)
  = (map Cerr (flat_map (diagnostic be m v) before), Throw IndexOutOfRange).
Proof.
  intros Hbefore Hknown Hstray.
  induction Hbefore as [| e0 before He0 Hall IH]; cbn [app report_errors flat_map].
  - rewrite (report_error_stray_index be m v e Hknown Hstray). reflexivity.
  - rewrite (report_error_diagnostic be m v e0 He0), map_app, IH.
    reflexivity.
Qed.

(** Whatever the records, the loop writes lines on [cerr] only, and ends
    normally or at a stray node index. *)
Lemma report_errors_shape (be : Backend) (m : ModelProto) (v : Severity)
    (errs : list IParserError) :
  exists lines,
    report_errors be m v errs = (map Cerr lines, Ok tt)
    \/ report_errors be m v errs = (map Cerr lines, Throw IndexOutOfRange).
Proof.
  induction errs as [| e errs IH].
  - exists []. left. reflexivity.
  - cbn [report_errors].
    destruct (node_index_cases m e) as [Hvalid | [Hknown Hstray]].
    + rewrite (report_error_diagnostic be m v e Hvalid).
      destruct IH as [lines [IH | IH]]; rewrite IH;
        exists (diagnostic be m v e ++ lines)%list; [left | right];
        cbn; rewrite map_app; reflexivity.
    + rewrite (report_error_stray_index be m v e Hknown Hstray).
      exists []. right. reflexivity.
Qed.

(** The run of a call whose bytes the backend parser rejects, for every
    list of error records. *)
Lemma rejected_run_shape (be : Backend) (onnx_model : string)
    (fp16_mode : bool) (max_batch_size : Z) (max_workspace_size : N)
    (calibrator : option TRTInt8Calibrator) (verbosity : Severity)
    (debug_builder : bool) (m : ModelProto) :
  parser_ready be ->
  ParseFromString be onnx_model = Some m ->
  parser_parse be onnx_model = false ->
  exists lines e,
    onnxToTrtCtx be onnx_model fp16_mode max_batch_size max_workspace_size
      calibrator verbosity debug_builder
    = (ParserParse onnx_model :: map Cerr lines, Throw e)
    /\ (e = GraphCompileError \/ e = IndexOutOfRange).
Proof.
  intros Hready Hmodel Hreject. past_factories Hready.
  rewrite Hmodel, Hreject. cbn.
  destruct (report_errors_shape be m verbosity (parser_errors be onnx_model))
    as [lines [Hrun | Hrun]]; rewrite Hrun; cbn.
  - exists lines, GraphCompileError. rewrite app_nil_r. auto.
  - exists lines, IndexOutOfRange. auto.
Qed.

(** X5.  When the backend parser, once created, rejects the bytes, whatever
    error records it leaves, the call writes only lines on [cerr] after the
    parse, ends in an exception, and invokes no compile step, schedules no
    background build and emits no warning. *)
Theorem rejected_parse_builds_nothing (be : Backend) (onnx_model : string)
    (fp16_mode : bool) (max_batch_size : Z) (max_workspace_size : N)
    (calibrator : option TRTInt8Calibrator) (verbosity : Severity)
    (debug_builder : bool) :
  parser_ready be ->
  ParseFromString be onnx_model <> None ->
  parser_parse be onnx_model = false ->
  exists lines e,
    onnxToTrtCtx be onnx_model fp16_mode max_batch_size max_workspace_size
      calibrator verbosity debug_builder
    = (ParserParse onnx_model :: map Cerr lines, Throw e)
    /\ builds (ParserParse onnx_model :: map Cerr lines) = []
    /\ scheduled (ParserParse onnx_model :: map Cerr lines) = []
    /\ warnings (ParserParse onnx_model :: map Cerr lines) = [].
Proof.
  intros Hready Hmodel Hreject.
  destruct (ParseFromString be onnx_model) as [m |] eqn:Em; [| congruence].
  destruct (rejected_run_shape be onnx_model fp16_mode max_batch_size
              max_workspace_size calibrator verbosity debug_builder m
              Hready Em Hreject) as (lines & e & Hrun & _).
  exists lines, e. cbn [builds scheduled warnings].
  rewrite builds_map_Cerr, scheduled_map_Cerr, warnings_map_Cerr. auto.
Qed.

Lemma rejected_parse_builds_nothing_witness :
  exists lines e,
    onnxToTrtCtx
      (sample_backend 7 (Some lone_model) false [error_at 0; error_at 5] true true)
      "model" true 8 1024%N (Some fresh_calibrator) kINFO true
    = (ParserParse "model" :: map Cerr lines, Throw e).
Proof.
  destruct (rejected_parse_builds_nothing
              (sample_backend 7 (Some lone_model) false [error_at 0; error_at 5]
                 true true)
              "model" true 8 1024%N (Some fresh_calibrator) kINFO true)
    as (lines & e & Hrun & _).
  - repeat split.
  - discriminate.
  - reflexivity.
  - exists lines, e. exact Hrun.
Defined.

(** X6.  When the backend parser, once created, rejects the bytes and one of its records
    carries a node index that is neither [-1] nor inside the parsed model,
    the records before it are reported, nothing is written for it or for
    the records after it, and the call ends at the node access instead of
    the "Cannot parse ONNX into TensorRT Engine" error. *)
Theorem stray_record_cuts_report_short (be : Backend) (onnx_model : string)
    (fp16_mode : bool) (max_batch_size : Z) (max_workspace_size : N)
    (calibrator : option TRTInt8Calibrator) (verbosity : Severity)
    (debug_builder : bool) (m : ModelProto)
    (before after : list IParserError) (e : IParserError) :
  parser_ready be ->
  ParseFromString be onnx_model = Some m ->
  parser_parse be onnx_model = false ->
  parser_errors be onnx_model = (before ++ e :: after)%list ->
  Forall (node_index_valid m) before ->
  err_node e <> -1 ->
  err_node e < 0 \/ Z.of_nat (List.length (node (graph m))) <= err_node e ->
  onnxToTrtCtx be onnx_model fp16_mode max_batch_size max_workspace_size
    calibrator verbosity debug_builder
  = (ParserParse onnx_model
       :: map Cerr (flat_map (diagnostic be m verbosity) before),
     Throw IndexOutOfRange).
Proof.
  intros Hready Hmodel Hreject Herrs Hbefore Hknown Hstray.
  past_factories Hready. rewrite Hmodel, Hreject. cbn. rewrite Herrs.
  rewrite (report_errors_stops_at_stray be m verbosity before after e
             Hbefore Hknown Hstray).
  reflexivity.
Qed.

Lemma stray_record_cuts_report_short_witness :
  cerr_lines (trace (onnxToTrtCtx
      (sample_backend 7 (Some lone_model) false
         [error_at (-1); error_at 5; error_at 0] true true)
      "model" false 8 1024%N None kERROR false))
  = ["ERROR: ModelImporter.cpp:134 In function importModel:" ++ endl
       ++ "[8] unsupported node"].
Proof.
  rewrite (stray_record_cuts_report_short
             (sample_backend 7 (Some lone_model) false
                [error_at (-1); error_at 5; error_at 0] true true)
             "model" false 8 1024%N None kERROR false lone_model
             [error_at (-1)] [error_at 0] (error_at 5)).
  - reflexivity.
  - repeat split.
  - reflexivity.
  - reflexivity.
  - reflexivity.
  - repeat constructor.
  - discriminate.
  - right. cbn. lia.
Defined.

(** ** Every way a call can end *)

(** X7.  A call ends in exactly one of six ways.  The builder, the network
    or the parser cannot be created: [InferObject]'s exception, before
    anything else.  Bytes the protobuf pass rejects: "Could not parse ONNX
    from string".  Bytes the backend parser rejects: "Cannot parse ONNX into
    TensorRT Engine", or the fault of a stray node index.  On the code for
    TensorRT 7, no configuration can be created: [InferObject]'s exception
    before any compile step.  Otherwise exactly one compile step runs on the
    calling thread, on the network imported from the bytes: the call returns
    the engine of that step, or, when the step yields no engine, ends in
    [InferObject]'s exception with nothing scheduled. *)
Theorem call_outcomes (be : Backend) (onnx_model : string)
    (fp16_mode : bool) (max_batch_size : Z) (max_workspace_size : N)
    (calibrator : option TRTInt8Calibrator) (verbosity : Severity)
    (debug_builder : bool) :
  let run := onnxToTrtCtx be onnx_model fp16_mode max_batch_size
               max_workspace_size calibrator verbosity debug_builder in
  (~ parser_ready be
   /\ run = ([], Throw EngineBuildFailed))
  \/ (parser_ready be
      /\ ParseFromString be onnx_model = None
      /\ run = ([], Throw MalformedModel))
  \/ (parser_ready be
      /\ ParseFromString be onnx_model <> None
      /\ parser_parse be onnx_model = false
      /\ builds (trace run) = [] /\ scheduled (trace run) = []
      /\ (outcome run = Throw GraphCompileError
          \/ outcome run = Throw IndexOutOfRange))
  \/ (parser_ready be
      /\ ParseFromString be onnx_model <> None
      /\ parser_parse be onnx_model = true
      /\ 6 < NV_TENSORRT_MAJOR be /\ creates_builder_config be = false
      /\ builds (trace run) = [] /\ scheduled (trace run) = []
      /\ outcome run = Throw EngineBuildFailed)
  \/ (context_ready be
      /\ ParseFromString be onnx_model <> None
      /\ parser_parse be onnx_model = true
      /\ exists call,
           builds (trace run) = [call]
           /\ call_network call = network_of onnx_model
           /\ ((exists r engine,
                  outcome run = Ok r /\ compile be call = Some engine
                  /\ ctx_engine r = Some engine
                  /\ ctx_logger r = Some {| logger_verbosity := verbosity |})
               \/ (outcome run = Throw EngineBuildFailed
                   /\ compile be call = None
                   /\ scheduled (trace run) = []))).
Proof.
  intros run. subst run.
  destruct (creates_builder be) eqn:Hb;
    [destruct (creates_network be) eqn:Hn;
       [destruct (creates_parser be) eqn:Hp |] |].
  2-4: left; split;
    [ unfold parser_ready; intros (H1 & H2 & H3); congruence
    | unfold onnxToTrtCtx, createInferBuilder, createNetworkV2, createParser;
      rewrite ?Hb, ?Hn, ?Hp; reflexivity ].
  right.
  assert (Hready : parser_ready be) by (repeat split; assumption).
  destruct (ParseFromString be onnx_model) as [m |] eqn:Em.
  2: { left. split; [exact Hready | split; [reflexivity |]].
       past_factories Hready. rewrite Em. reflexivity. }
  right. destruct (parser_parse be onnx_model) eqn:Hparse.
  2: { left. split; [exact Hready | split; [discriminate | split; [reflexivity |]]].
       destruct (rejected_run_shape be onnx_model fp16_mode max_batch_size
                   max_workspace_size calibrator verbosity debug_builder m
                   Hready Em Hparse) as (lines & e & Hrun & He).
       rewrite Hrun. cbn [trace outcome fst snd builds scheduled].
       rewrite builds_map_Cerr, scheduled_map_Cerr.
       split; [reflexivity | split; [reflexivity |]].
       destruct He as [-> | ->]; auto. }
  right.
  destruct (6 <? NV_TENSORRT_MAJOR be) eqn:Hgate;
    [apply Z.ltb_lt in Hgate | apply Z.ltb_ge in Hgate].
  - destruct (creates_builder_config be) eqn:Hcfg.
    + right.
      assert (Hctx : context_ready be) by (split; [exact Hready | auto]).
      split; [exact Hctx | split; [discriminate | split; [reflexivity |]]].
      past_parses Hctx Em Hparse; [| exfalso; lia].
      destruct fp16_mode;
        destruct (platformHasFastFp16 be); destruct debug_builder;
        destruct calibrator as [c |];
        try (destruct (platformHasFastInt8 be));
        try (destruct (isCacheEmpty c) eqn:Hcache);
        cbn; any_compile_step; cbn; try rewrite Hcache; cbn;
        (eexists; split; [reflexivity | split; [reflexivity |]]);
        cbn; rewrite Hengine;
        first [ left; eexists; eexists; repeat split; reflexivity
              | right; repeat split; reflexivity ].
    + left.
      split; [exact Hready | split; [discriminate | split; [reflexivity |]]].
      split; [exact Hgate | split; [reflexivity |]].
      past_factories Hready. rewrite Em, Hparse. cbn.
      apply Z.ltb_lt in Hgate. rewrite Hgate.
      unfold createBuilderConfig. rewrite Hcfg. cbn. repeat split.
  - right.
    assert (Hctx : context_ready be) by (split; [exact Hready | intros; lia]).
    split; [exact Hctx | split; [discriminate | split; [reflexivity |]]].
    past_parses Hctx Em Hparse; [exfalso; lia |].
    destruct fp16_mode;
      destruct (platformHasFastFp16 be); destruct debug_builder;
      destruct calibrator as [c |];
      try (destruct (platformHasFastInt8 be));
      try (destruct (isCacheEmpty c) eqn:Hcache);
      cbn; any_compile_step; cbn; try rewrite Hcache; cbn;
      (eexists; split; [reflexivity | split; [reflexivity |]]);
      cbn; rewrite Hengine;
      first [ left; eexists; eexists; repeat split; reflexivity
            | right; repeat split; reflexivity ].
Qed.

(** X8.  When the objects are created, both parses accept the bytes and the
    backend compiles the network under no setting, the call ends in
    [EngineBuildFailed] after one compile attempt and schedules nothing.  A
    calibrator on a platform without int8 has then been marked done only by
    the code for TensorRT 6 and older, which probes int8 before the compile
    step; the code for TensorRT 7 fails before it reaches the probe. *)
Theorem failed_compile_ends_call (be : Backend) (onnx_model : string)
    (fp16_mode : bool) (max_batch_size : Z) (max_workspace_size : N)
    (calibrator : option TRTInt8Calibrator) (verbosity : Severity)
    (debug_builder : bool) :
  context_ready be ->
  ParseFromString be onnx_model <> None ->
  parser_parse be onnx_model = true ->
  (forall call, call_network call = network_of onnx_model ->
                compile be call = None) ->
  exists t,
    onnxToTrtCtx be onnx_model fp16_mode max_batch_size max_workspace_size
      calibrator verbosity debug_builder = (t, Throw EngineBuildFailed)
    /\ List.length (builds t) = 1%nat
    /\ scheduled t = []
    /\ (forall c, In (CalibratorSetDone c) t <->
                  NV_TENSORRT_MAJOR be <= 6 /\ calibrator = Some c
                  /\ platformHasFastInt8 be = false).
Proof.
  intros Hctx Hmodel Hparse Hfails.
  destruct (ParseFromString be onnx_model) as [m |] eqn:Em; [| congruence].
  past_parses Hctx Em Hparse;
    destruct fp16_mode; destruct (platformHasFastFp16 be);
    destruct debug_builder; destruct calibrator as [c |];
    try (destruct (platformHasFastInt8 be));
    cbn;
    match goal with
    | |- context [buildEngineWithConfig be ?b ?n ?k] =>
        let Hnone := fresh "Hnone" in
        pose proof (Hfails {| call_builder := b; call_network := n;
                              call_config := Some k |} eq_refl) as Hnone;
        unfold compile in Hnone; cbn in Hnone; rewrite Hnone
    | |- context [buildCudaEngine be ?b ?n] =>
        let Hnone := fresh "Hnone" in
        pose proof (Hfails {| call_builder := b; call_network := n;
                              call_config := None |} eq_refl) as Hnone;
        unfold compile in Hnone; cbn in Hnone; rewrite Hnone
    end;
    cbn; (eexists; split; [reflexivity |]); cbn;
    (split; [reflexivity | split; [reflexivity |]]);
    intros c'; (split; [intros Hin | intros (Hmajor & Hcal & Hint8)]);
    try lia; try discriminate; try (intuition congruence).
Qed.

Lemma failed_compile_ends_call_witness :
  exists t,
    onnxToTrtCtx (no_engine_backend 6 false) "model" true 8 1024%N
      (Some fresh_calibrator) kWARNING false = (t, Throw EngineBuildFailed)
    /\ In (CalibratorSetDone fresh_calibrator) t.
Proof.
  destruct (failed_compile_ends_call (no_engine_backend 6 false) "model" true
              8 1024%N (Some fresh_calibrator) kWARNING false)
    as (t & Hrun & _ & _ & Hdone).
  - repeat split.
  - discriminate.
  - reflexivity.
  - intros call _. unfold compile. destruct (call_config call); reflexivity.
  - exists t. split; [exact Hrun |].
    apply Hdone. cbn. repeat split. lia.
Defined.

(** ** The settings of the compile steps *)





(** ** The calibrator *)

(** X11.  Whatever the call, a calibrator is marked done only if it is the
    one supplied and the platform has no int8; the call has then attached no
    calibrator to any builder or configuration and scheduled nothing. *)
Theorem calibrator_done_only_on_downgrade (be : Backend) (onnx_model : string)
    (fp16_mode : bool) (max_batch_size : Z) (max_workspace_size : N)
    (calibrator : option TRTInt8Calibrator) (verbosity : Severity)
    (debug_builder : bool) (c : TRTInt8Calibrator) :
  In (CalibratorSetDone c)
     (trace (onnxToTrtCtx be onnx_model fp16_mode max_batch_size
               max_workspace_size calibrator verbosity debug_builder)) ->
  calibrator = Some c
  /\ platformHasFastInt8 be = false
  /\ (forall k, ~ In (SetInt8Calibrator k)
                   (trace (onnxToTrtCtx be onnx_model fp16_mode max_batch_size
                             max_workspace_size calibrator verbosity
                             debug_builder)))
  /\ scheduled (trace (onnxToTrtCtx be onnx_model fp16_mode max_batch_size
                         max_workspace_size calibrator verbosity debug_builder))
     = [].
Proof.
  destruct (creates_builder be) eqn:Hb;
    [destruct (creates_network be) eqn:Hn;
       [destruct (creates_parser be) eqn:Hp |] |].
  2-4: unfold onnxToTrtCtx, createInferBuilder, createNetworkV2, createParser;
    rewrite ?Hb, ?Hn, ?Hp; cbn; intros [].
  assert (Hready : parser_ready be) by (repeat split; assumption).
  destruct (ParseFromString be onnx_model) as [m |] eqn:Em.
  2: { past_factories Hready. rewrite Em. cbn. intros []. }
  destruct (parser_parse be onnx_model) eqn:Hparse.
  - past_factories Hready. rewrite Em, Hparse. cbn.
    unfold createBuilderConfig.
    destruct (6 <? NV_TENSORRT_MAJOR be);
      try (destruct (creates_builder_config be); [| cbn; intuition discriminate]);
      destruct fp16_mode;
      destruct (platformHasFastFp16 be); destruct debug_builder;
      destruct calibrator as [c0 |];
      try (destruct (platformHasFastInt8 be));
      try (destruct (isCacheEmpty c0) eqn:Hcache);
      cbn; any_compile_step; cbn; try rewrite Hcache; cbn;
      intros Hin;
      try (exfalso; intuition discriminate);
      (split; [intuition congruence |]);
      (split; [reflexivity |]);
      (split; [intros k Hk; intuition discriminate | reflexivity]).
  - destruct (rejected_run_shape be onnx_model fp16_mode max_batch_size
                max_workspace_size calibrator verbosity debug_builder m
                Hready Em Hparse) as (lines & e & Hrun & _).
    rewrite Hrun. cbn [trace fst]. intros [Hin | Hin]; [discriminate |].
    exfalso. revert Hin. apply not_cerr_not_in. discriminate.
Qed.

Lemma calibrator_done_only_on_downgrade_witness :
  platformHasFastInt8 (sample_backend 6 (Some lone_model) true [] true false)
  = false.
Proof.
  apply (calibrator_done_only_on_downgrade
           (sample_backend 6 (Some lone_model) true [] true false)
           "model" false 8 1024%N (Some fresh_calibrator) kWARNING false
           fresh_calibrator).
  cbn. auto 10.
Defined.

(** ** Verbosity *)

(** X12.  Once the backend parser accepts the bytes, the verbosity has no
    part in the build: two calls that differ in verbosity alone emit the
    same events and end alike, with the same engine and the same pending
    handle or the same exception. *)
Theorem verbosity_does_not_touch_build (be : Backend) (onnx_model : string)
    (fp16_mode : bool) (max_batch_size : Z) (max_workspace_size : N)
    (calibrator : option TRTInt8Calibrator) (v v' : Severity)
    (debug_builder : bool) :
  parser_parse be onnx_model = true ->
  trace (onnxToTrtCtx be onnx_model fp16_mode max_batch_size
           max_workspace_size calibrator v debug_builder)
  = trace (onnxToTrtCtx be onnx_model fp16_mode max_batch_size
             max_workspace_size calibrator v' debug_builder)
  /\ match outcome (onnxToTrtCtx be onnx_model fp16_mode max_batch_size
                      max_workspace_size calibrator v debug_builder),
           outcome (onnxToTrtCtx be onnx_model fp16_mode max_batch_size
                      max_workspace_size calibrator v' debug_builder)
     with
     | Ok r, Ok r' =>
         ctx_engine r = ctx_engine r' /\ ctx_future r = ctx_future r'
     | Throw e, Throw e' => e = e'
     | _, _ => False
     end.
Proof.
  intros Hparse.
  unfold onnxToTrtCtx, createInferBuilder, createNetworkV2, createParser,
    createBuilderConfig.
  destruct (creates_builder be); [| split; reflexivity].
  destruct (creates_network be); [| split; reflexivity].
  destruct (creates_parser be); [| split; reflexivity].
  cbn.
  destruct (ParseFromString be onnx_model) as [m |]; [| split; reflexivity].
  cbn. rewrite Hparse. cbn.
  destruct (6 <? NV_TENSORRT_MAJOR be);
    try (destruct (creates_builder_config be); [| split; reflexivity]);
    destruct fp16_mode;
    destruct (platformHasFastFp16 be); destruct debug_builder;
    destruct calibrator as [c |];
    try (destruct (platformHasFastInt8 be));
    try (destruct (isCacheEmpty c) eqn:Hcache);
    cbn; any_compile_step; cbn; try rewrite Hcache; cbn;
    repeat split.
Qed.

Lemma verbosity_does_not_touch_build_witness :
  trace (onnxToTrtCtx (sample_backend 7 (Some lone_model) true [] true true)
           "model" true 8 1024%N (Some fresh_calibrator) kERROR true)
  = trace (onnxToTrtCtx (sample_backend 7 (Some lone_model) true [] true true)
             "model" true 8 1024%N (Some fresh_calibrator) kVERBOSE true).
Proof.
  apply (verbosity_does_not_touch_build
           (sample_backend 7 (Some lone_model) true [] true true)
           "model" true 8 1024%N (Some fresh_calibrator) kERROR kVERBOSE true).
  reflexivity.
Defined.

(** ** Witnesses of the ordering lemmas *)


Lemma scheduling_is_last_event_witness :
  exists t0 task,
    trace (onnxToTrtCtx (sample_backend 6 (Some lone_model) true [] true true)
             "model" false 8 1024%N (Some fresh_calibrator) kWARNING false)
    = (t0 ++ [Async task])%list
    /\ scheduled t0 = [].
Proof.
  destruct (onnxToTrtCtx (sample_backend 6 (Some lone_model) true [] true true)
              "model" false 8 1024%N (Some fresh_calibrator) kWARNING false)
    as [t [r | e]] eqn:Hrun; [| discriminate Hrun].
  destruct (ctx_future r) as [task |] eqn:Hfuture;
    [| injection Hrun as _ Hr; subst r; discriminate Hfuture].
  destruct (scheduling_is_last_event
              (sample_backend 6 (Some lone_model) true [] true true)
              "model" false 8 1024%N (Some fresh_calibrator) kWARNING false
              t r task Hrun Hfuture) as (t0 & Ht & Hnone).
  exists t0, task. split; assumption.
Defined.
